(** * NYOS APR front-end: analytics view-model derivation and chat session.

    Shallow embedding of
      - frontend/src/components/Analytics.jsx  (loadAllData, radarData,
        supplierPieData, the "Evolution" summary of the comparison tab),
      - frontend/src/components/Chat.jsx       (the conversation handlers),
      - frontend/src/api.js                    (the fetch wrappers, streamSummary).

    JavaScript values are modelled by the inductive type [Js.value]; React
    state is a record threaded through the handlers; an async function is a
    small tree of state updates and awaited requests. *)

From Stdlib Require Import ZArith QArith String List Bool Lia.
Import ListNotations.
Open Scope string_scope.
#[local] Set Warnings "-register-all".

(** ** JavaScript values, as [res.json()] hands them to the components *)

Module Js.

(** A finite IEEE double is a rational, so [JNum] carries the exact value of
    the number; [JNaN] is kept apart.  Objects are lists of own properties. *)
Inductive value : Type :=
| JUndefined
| JNull
| JBool (b : bool)
| JNum (q : Q)
| JNaN
| JStr (s : string)
| JArr (items : list value)
| JObj (fields : list (string * value)).

(** ToBoolean. *)
Definition truthy (v : value) : bool :=
  match v with
  | JUndefined | JNull | JNaN => false
  | JBool b => b
  | JNum q => negb (Qeq_bool q 0)
  | JStr s => negb (String.eqb s "")
  | JArr _ | JObj _ => true
  end.

(** [a || b] *)
Definition or_else (a b : value) : value := if truthy a then a else b.

Definition nullish (v : value) : bool :=
  match v with
  | JUndefined | JNull => true
  | _ => false
  end.

Fixpoint lookup (k : string) (fields : list (string * value)) : value :=
  match fields with
  | [] => JUndefined
  | (k', v) :: rest => if String.eqb k k' then v else lookup k rest
  end.

(** [v?.k] for a data key [k] (not a built-in such as "length"): a property
    read on a primitive or an array finds nothing. *)
Definition opt_get (v : value) (k : string) : value :=
  match v with
  | JObj fs => lookup k fs
  | _ => JUndefined
  end.

(** [v.k]: a TypeError ([None]) on null and undefined. *)
Definition get (v : value) (k : string) : option value :=
  if nullish v then None else Some (opt_get v k).

Section Relational.

(** ToNumber of a string, an array or an object runs ToPrimitive and
    StringToNumber; that part of the language is taken as given.  [None]
    stands for NaN. *)
Variable CoerceToNumber : value -> option Q.

Definition ToNumber (v : value) : option Q :=
  match v with
  | JUndefined | JNaN => None
  | JNull => Some 0
  | JBool b => Some (if b then 1 else 0)
  | JNum q => Some q
  | JStr _ | JArr _ | JObj _ => CoerceToNumber v
  end.

(** [v >= q] and [v <= q] against a numeric literal: false as soon as the
    left operand converts to NaN. *)
Definition js_ge (v : value) (q : Q) : bool :=
  match ToNumber v with
  | Some x => Qle_bool q x
  | None => false
  end.

Definition js_le (v : value) (q : Q) : bool :=
  match ToNumber v with
  | Some x => Qle_bool x q
  | None => false
  end.

End Relational.

End Js.

Import Js.

(** ** api.js: the fetch wrappers *)

Module Api.

(** What [fetch] settles to.  It rejects on a network failure only; a
    response of any status fulfils.  [body] is the parsed body, [None] when
    the text is not JSON (then [res.json()] rejects). *)
Inductive fetched (A : Type) : Type :=
| NetworkError
| Response (status : Z) (body : option A).
Arguments NetworkError {A}.
Arguments Response {A} status body.

(** A settled promise. *)
Inductive settled (A : Type) : Type :=
| Resolved (a : A)
| Rejected.
Arguments Resolved {A} a.
Arguments Rejected {A}.

(** [const res = await fetch(...); return res.json();] -- the body of every
    wrapper of api.js: [res.status] and [res.ok] are never read. *)
Definition json {A : Type} (res : fetched A) : settled A :=
  match res with
  | NetworkError => Rejected
  | Response _ (Some a) => Resolved a
  | Response _ None => Rejected
  end.

(** [res.ok]: the status is in the range 200-299. *)
Definition ok {A : Type} (res : fetched A) : bool :=
  match res with
  | NetworkError => false
  | Response status _ => ((200 <=? status) && (status <=? 299))%Z
  end.

Definition API_BASE : string := "http://localhost:8000".

Definition overview_url : string := API_BASE ++ "/analytics/overview".
Definition yearly_url : string := API_BASE ++ "/analytics/yearly-summary".
Definition suppliers_url : string := API_BASE ++ "/analytics/supplier-performance".
Definition equipment_url : string := API_BASE ++ "/analytics/equipment-analysis".

(** An absent argument interpolates as the text "undefined". *)
Definition interpolate (arg : option string) : string :=
  match arg with
  | Some s => s
  | None => "undefined"
  end.

Definition comparison_url (p1Start p1End p2Start p2End : option string) : string :=
  let url := API_BASE ++ "/analytics/period-comparison" in
  match p1Start with
  | Some (String _ _) =>
      url ++ "?period1_start=" ++ interpolate p1Start
          ++ "&period1_end=" ++ interpolate p1End
          ++ "&period2_start=" ++ interpolate p2Start
          ++ "&period2_end=" ++ interpolate p2End
  | _ => url
  end.

Section Wrappers.

(** The network, seen from the GET wrappers: what [fetch(url)] settles to. *)
Variable fetch : string -> fetched value.

Definition getAnalyticsOverview : settled value := json (fetch overview_url).
Definition getYearlySummary : settled value := json (fetch yearly_url).
Definition getSupplierPerformance : settled value := json (fetch suppliers_url).
Definition getEquipmentAnalysis : settled value := json (fetch equipment_url).
Definition getPeriodComparison (p1Start p1End p2Start p2End : option string)
  : settled value :=
  json (fetch (comparison_url p1Start p1End p2Start p2End)).

End Wrappers.

(** [Promise.all]: fulfils with every value, in order, when all the promises
    fulfil, and rejects as soon as one of them rejects. *)
Fixpoint all {A : Type} (ps : list (settled A)) : settled (list A) :=
  match ps with
  | [] => Resolved []
  | Resolved a :: rest =>
      match all rest with
      | Resolved l => Resolved (a :: l)
      | Rejected => Rejected
      end
  | Rejected :: _ => Rejected
  end.

End Api.

Import Api.

(** ** Analytics.jsx: derived chart data *)

Module Analytics.

(** Lines 82-87. *)
Definition radarData (overview : value) : list value :=
  [ JObj [("metric", JStr "Yield");
          ("value", or_else (opt_get (opt_get overview "production") "avg_yield") (JNum 0));
          ("fullMark", JNum 100)];
    JObj [("metric", JStr "QC Pass");
          ("value", or_else (opt_get (opt_get overview "quality") "pass_rate") (JNum 0));
          ("fullMark", JNum 100)];
    JObj [("metric", JStr "Calibrations OK");
          ("value", or_else (opt_get (opt_get overview "equipment") "calibration_pass_rate") (JNum 0));
          ("fullMark", JNum 100)];
    JObj [("metric", JStr "Quality Score");
          ("value", or_else (opt_get (opt_get overview "quality") "quality_score") (JNum 0));
          ("fullMark", JNum 100)] ].

(** The four JSON paths read by [radarData], in order. *)
Definition radar_sources (overview : value) : list value :=
  [ opt_get (opt_get overview "production") "avg_yield";
    opt_get (opt_get overview "quality") "pass_rate";
    opt_get (opt_get overview "equipment") "calibration_pass_rate";
    opt_get (opt_get overview "quality") "quality_score" ].

(** The arrow function of lines 93-97; [s.supplier_name] throws on a null
    entry. *)
Definition pie_entry (s : value) : option value :=
  match get s "supplier_name", get s "supplier_id",
        get s "total_deliveries", get s "approval_rate" with
  | Some nm, Some id, Some total, Some rate =>
      Some (JObj [("name", or_else nm id); ("value", total); ("rate", rate)])
  | _, _, _, _ => None
  end.

Fixpoint map_entries (l : list value) : option (list value) :=
  match l with
  | [] => Some []
  | s :: rest =>
      match pie_entry s, map_entries rest with
      | Some e, Some es => Some (e :: es)
      | _, _ => None
      end
  end.

(** Lines 93-97: [suppliers?.suppliers?.slice(0, 5).map(...) || []].
    [None] is the TypeError raised when the field is neither nullish nor an
    array (no [slice], or a string whose slice has no [map]). *)
Definition supplierPieData (suppliers : value) : option (list value) :=
  match opt_get suppliers "suppliers" with
  | JUndefined | JNull => Some []
  | JArr l => map_entries (firstn 5 l)
  | _ => None
  end.

(** The reduced shape of one supplier. *)
Definition reduced (s : value) : value :=
  JObj [("name", or_else (opt_get s "supplier_name") (opt_get s "supplier_id"));
        ("value", opt_get s "total_deliveries");
        ("rate", opt_get s "approval_rate")].

(** *** The "Evolution" summary of the comparison tab (lines 446-471) *)

Section Evolution.

Variable CoerceToNumber : value -> option Q.

(** [comparison.changes?.k]; the block is rendered under
    [comparison && ...], so [comparison] is not nullish here. *)
Definition change (comparison : value) (k : string) : value :=
  opt_get (opt_get comparison "changes") k.

Definition batches_class (comparison : value) : string :=
  if js_ge CoerceToNumber (change comparison "batches_pct") 0
  then "text-green-600" else "text-red-600".

Definition yield_class (comparison : value) : string :=
  if js_ge CoerceToNumber (change comparison "yield_pct") 0
  then "text-green-600" else "text-red-600".

Definition hardness_class (comparison : value) : string :=
  if js_ge CoerceToNumber (change comparison "hardness_pct") 0
  then "text-blue-600" else "text-blue-600".

Definition complaints_class (comparison : value) : string :=
  if js_le CoerceToNumber (change comparison "complaints_pct") 0
  then "text-green-600" else "text-red-600".

End Evolution.

(** What a colour class means to the reader of the dashboard. *)
Inductive semantic : Type := Good | Bad | Neutral.

Definition semantic_of (class : string) : option semantic :=
  if String.eqb class "text-green-600" then Some Good
  else if String.eqb class "text-red-600" then Some Bad
  else if String.eqb class "text-blue-600" then Some Neutral
  else None.

Definition comparison_of (batches yield hardness complaints : Q) : value :=
  JObj [("changes", JObj [("batches_pct", JNum batches);
                          ("yield_pct", JNum yield);
                          ("hardness_pct", JNum hardness);
                          ("complaints_pct", JNum complaints)])].

(** *** loadAllData (lines 17-48) *)

Record State : Type := mkState {
  overview : value;
  yearly : value;
  suppliers : value;
  equipment : value;
  comparison : value;
  loading : bool
}.

(** The [useState] initial values. *)
Definition initial : State := mkState JNull JNull JNull JNull JNull true.

Definition setLoading (b : bool) (st : State) : State :=
  mkState (overview st) (yearly st) (suppliers st) (equipment st) (comparison st) b.

(** The five calls handed to [Promise.all], in the order of the source. *)
Definition sub_fetches (fetch : string -> fetched value) : list (settled value) :=
  [ getAnalyticsOverview fetch;
    getYearlySummary fetch;
    getSupplierPerformance fetch;
    getEquipmentAnalysis fetch;
    getPeriodComparison fetch None None None None ].

(** Array destructuring: a missing position reads as undefined. *)
Definition item (l : list value) (i : nat) : value := nth i l JUndefined.

Definition loadAllData (fetch : string -> fetched value) (st : State) : State :=
  let st1 := setLoading true st in
  let st2 :=
    match all (sub_fetches fetch) with
    | Resolved data =>
        mkState (item data 0) (item data 1) (item data 2) (item data 3) (item data 4)
                (loading st1)
    | Rejected => st1            (* catch: console.error(e) *)
    end in
  setLoading false st2.          (* finally *)

(** The five view-model fields of a state. *)
Definition view (st : State) : list value :=
  [overview st; yearly st; suppliers st; equipment st; comparison st].

(** The five resources a load reads. *)
Definition resources : list string :=
  [overview_url; yearly_url; suppliers_url; equipment_url;
   comparison_url None None None None].

(** A sub-fetch fails, in the words of the specification: a network failure
    or a non-success response. *)
Definition failed (res : fetched value) : bool := negb (ok res).

(** A sub-fetch whose promise rejects. *)
Definition rejects (res : fetched value) : bool :=
  match json res with
  | Resolved _ => false
  | Rejected => true
  end.

(** A percentage-like metric: a number between 0 and 100. *)
Definition in_range (v : value) : Prop :=
  exists q : Q, v = JNum q /\ 0 <= q <= 100.

(** A well-formed Overview: each of the four source fields is missing or
    falsy, or a number between 0 and 100. *)
Definition well_formed (overview : value) : Prop :=
  Forall (fun v => truthy v = false \/ in_range v) (radar_sources overview).

(** *** Sample snapshots *)

(** An Overview with no [production] object, a zero pass rate, and two
    fields in range. *)
Definition sparse_overview : value :=
  JObj [("has_data", JBool true);
        ("quality", JObj [("pass_rate", JNum 0); ("quality_score", JNum (173 # 2))]);
        ("equipment", JObj [("calibration_pass_rate", JNum 100)])].

(** Six suppliers, in an order that is sorted by no field. *)
Definition supplier (name : string) (deliveries rate : Q) : value :=
  JObj [("supplier_id", JStr name); ("total_deliveries", JNum deliveries);
        ("approval_rate", JNum rate)].

Definition six_suppliers : value :=
  JObj [("suppliers",
         JArr [supplier "S6" 10 90; supplier "S2" 40 99; supplier "S5" 7 80;
               supplier "S1" 12 95; supplier "S4" 3 70; supplier "S3" 55 100])].

(** A backend whose overview endpoint answers 404 with a JSON error body,
    every other endpoint answering 200. *)
Definition overview_down (url : string) : fetched value :=
  if String.eqb url overview_url
  then Response 404 (Some (JObj [("detail", JStr "Not Found")]))
  else Response 200 (Some (JObj [("has_data", JBool true)])).


(** *** What the component renders (lines 58-79) *)

Inductive Screen : Type := Spinner | NoData | Dashboard.

(** [if (loading) ...; if (!overview?.has_data) ...; return (...)] *)
Definition screen (st : State) : Screen :=
  if loading st then Spinner
  else if truthy (opt_get (overview st) "has_data") then Dashboard
  else NoData.

(** *** The suppliers tab (lines 239-335) *)

(** Line 13. *)
Definition COLORS : list string :=
  ["#2563eb"; "#22c55e"; "#f97316"; "#8b5cf6"; "#ec4899"; "#06b6d4"].

(** [COLORS[index % COLORS.length]], the fill of a slice of the pie. *)
Definition cell_fill (index : nat) : option string :=
  nth_error COLORS (index mod length COLORS).

(** The fills of the slices of a pie, in order: the map over
    [supplierPieData] of lines 327-329. *)
Definition cell_fills (data : list value) : list (option string) :=
  map cell_fill (seq 0 (length data)).

(** [s.status === k] *)
Definition status_is (s : value) (k : string) : bool :=
  match opt_get s "status" with
  | JStr x => String.eqb x k
  | _ => false
  end.

(** Lines 297-302, for a row [s] that is not null. *)
Definition status_badge (s : value) : string :=
  if status_is s "good" then "bg-green-100 text-green-700"
  else if status_is s "warning" then "bg-yellow-100 text-yellow-700"
  else "bg-red-100 text-red-700".

Definition status_label (s : value) : string :=
  if status_is s "good" then "Compliant"
  else if status_is s "warning" then "Watch"
  else "Critical".

Section SuppliersTab.

Variable CoerceToNumber : value -> option Q.

(** Lines 289-292, for a row [s] that is not null. *)
Definition rate_class (s : value) : string :=
  if js_ge CoerceToNumber (opt_get s "approval_rate") 98 then "text-green-600"
  else if js_ge CoerceToNumber (opt_get s "approval_rate") 95 then "text-yellow-600"
  else "text-red-600".

(** The sign printed before a percentage of the comparison summary
    (lines 449, 455, 461, 467): the same test for the four metrics. *)
Definition sign_prefix (comparison : value) (k : string) : string :=
  if js_ge CoerceToNumber (change comparison k) 0 then "+" else "".

End SuppliersTab.

(** How good a colour of the rate column is. *)
Definition rank (class : string) : nat :=
  if String.eqb class "text-green-600" then 2
  else if String.eqb class "text-yellow-600" then 1
  else 0.

End Analytics.

(** ** Chat.jsx: the conversation handlers *)

Module Chat.

#[local] Open Scope Z_scope.

(** Conversation ids are the integer keys the backend allocates; payloads
    are taken with the shape the backend documents. *)
Record Conversation : Type := mkConversation {
  id : Z;
  title : string
}.

Inductive Role : Type := user | assistant.

Record Message : Type := mkMessage {
  role : Role;
  content : string
}.

(** The [useState] cells of the component. *)
Record State : Type := mkState {
  conversations : list Conversation;
  currentConvId : option Z;
  messages : list Message;
  input : string;
  loading : bool
}.

Definition initial : State := mkState [] None [] "" false.

Definition setConversations (f : list Conversation -> list Conversation) (st : State) : State :=
  mkState (f (conversations st)) (currentConvId st) (messages st) (input st) (loading st).

Definition setCurrentConvId (c : option Z) (st : State) : State :=
  mkState (conversations st) c (messages st) (input st) (loading st).

Definition setMessages (f : list Message -> list Message) (st : State) : State :=
  mkState (conversations st) (currentConvId st) (f (messages st)) (input st) (loading st).

Definition setInput (s : string) (st : State) : State :=
  mkState (conversations st) (currentConvId st) (messages st) s (loading st).

Definition setLoading (b : bool) (st : State) : State :=
  mkState (conversations st) (currentConvId st) (messages st) (input st) b.

(** [!currentConvId]: null, and the number 0, are falsy. *)
Definition no_conversation (c : option Z) : bool :=
  match c with
  | None => true
  | Some n => (n =? 0)%Z
  end.

(** White space of [String.prototype.trim], on ASCII text. *)
Definition is_space (c : Ascii.ascii) : bool :=
  let n := Ascii.nat_of_ascii c in
  ((9 <=? n) && (n <=? 13) || (n =? 32))%nat.

Fixpoint trim_start (s : string) : string :=
  match s with
  | String c rest => if is_space c then trim_start rest else s
  | EmptyString => EmptyString
  end.

(** Drops trailing white space: a character stays when something other than
    white space follows it or when it is not white space itself. *)
Fixpoint trim_end (s : string) : string :=
  match s with
  | EmptyString => EmptyString
  | String c rest =>
      match trim_end rest with
      | EmptyString => if is_space c then EmptyString else String c EmptyString
      | kept => String c kept
      end
  end.

Definition trim (s : string) : string := trim_end (trim_start s).

(** [!input.trim()] *)
Definition blank (s : string) : bool := String.eqb (trim s) "".

(** The requests of the chat panel, indexed by the type of the parsed body. *)
Inductive request : Type -> Type :=
| getConversations : request (list Conversation)
| createConversation : request Conversation
| delConversation (convId : Z) : request unit
| chat (convId : Z) (message : string) : request string
| getChatHistory (convId : Z) : request (list Message).

(** An async function of the component: state updates, awaited requests,
    and calls to other async functions that are not awaited. *)
Inductive task : Type :=
| Done                                   (* the promise fulfils *)
| Throw                                  (* the promise rejects *)
| Update (f : State -> State) (k : task) (* a setter call *)
| Await (A : Type) (r : request A) (k : settled A -> task)
| Call (callee : task) (k : task).       (* a call without await *)
Arguments Await {A} r k.

(** Every handler closes over the state of the render that created it; the
    functional setters read the live state. *)
Section Handlers.

Variable closure : State.

(** Lines 32-38. *)
Definition selectConversation (convId : Z) : task :=
  Update (setCurrentConvId (Some convId))
    (Await (getChatHistory convId) (fun r =>
       match r with
       | Resolved history => Update (setMessages (fun _ => history)) Done
       | Rejected => Update (setMessages (fun _ => [])) Done
       end)).

(** Lines 24-30. *)
Definition loadConversations : task :=
  Await getConversations (fun r =>
    match r with
    | Resolved convs =>
        Update (setConversations (fun _ => convs))
          match convs with
          | first :: _ =>
              if no_conversation (currentConvId closure)
              then Call (selectConversation (id first)) Done
              else Done
          | [] => Done
          end
    | Rejected => Done                 (* console.error(e) *)
    end).

(** Lines 40-47. *)
Definition createNewConversation : task :=
  Await createConversation (fun r =>
    match r with
    | Resolved conv =>
        Update (setConversations (fun prev => conv :: prev))
          (Update (setCurrentConvId (Some (id conv)))
             (Update (setMessages (fun _ => [])) Done))
    | Rejected => Done                 (* console.error(e) *)
    end).

(** Lines 49-55. *)
Definition deleteConversation (convId : Z) : task :=
  Await (delConversation convId) (fun r =>
    match r with
    | Resolved _ =>
        Update (setConversations
                  (fun prev => filter (fun c => negb (id c =? convId)%Z) prev))
          match currentConvId closure with
          | Some cur =>
              if (cur =? convId)%Z
              then Update (setCurrentConvId None)
                     (Update (setMessages (fun _ => [])) Done)
              else Done
          | None => Done
          end
    | Rejected => Done                 (* console.error(e) *)
    end).

(** Lines 67-77: the turn itself, once [convId] is known. *)
Definition send (convId : Z) : task :=
  let userMessage := mkMessage user (input closure) in
  Update (setMessages (fun prev => (prev ++ [userMessage])%list))
    (Update (setInput "")
       (Update (setLoading true)
          (Await (chat convId (input closure)) (fun r =>
             match r with
             | Resolved response =>
                 Update (setMessages (fun prev => (prev ++ [mkMessage assistant response])%list))
                   (Call loadConversations
                      (Update (setLoading false) Done))
             | Rejected =>
                 Update (setMessages
                           (fun prev => (prev ++ [mkMessage assistant "Connection error."])%list))
                   (Update (setLoading false) Done)
             end)))).

(** Lines 57-78.  The conversation is created outside the [try] block. *)
Definition handleSubmit : task :=
  if blank (input closure) || loading closure then Done
  else
    let create_then_send :=
      Await createConversation (fun r =>
        match r with
        | Resolved conv =>
            Update (setConversations (fun prev => conv :: prev))
              (Update (setCurrentConvId (Some (id conv))) (send (id conv)))
        | Rejected => Throw
        end) in
    match currentConvId closure with
    | Some convId =>
        if no_conversation (Some convId) then create_then_send else send convId
    | None => create_then_send
    end.

End Handlers.

(** *** Running a handler against a backend *)

(** What the backend answers to each request. *)
Definition Backend : Type := forall A : Type, request A -> fetched A.

(** A request that went out. *)
Definition sent : Type := { A : Type & request A }.

Definition issue {A : Type} (r : request A) : sent := existT _ A r.

(** The live state and the requests issued so far. *)
Definition world : Type := (State * list sent)%type.

Section Run.

Variable backend : Backend.

(** [run t w] takes the async function [t] to the point where its promise
    settles, each awaited request being answered by the backend; [start]
    takes a call that is not awaited up to its first [await], which is all
    the caller waits for.  Both return the world they reach and [later]:
    what the calls left behind do to the world once their responses come
    in, after the task itself has settled.  [run] also tells whether the
    promise fulfilled. *)
Fixpoint run (t : task) (w : world) : world * bool * (world -> world) :=
  match t with
  | Done => (w, true, fun x => x)
  | Throw => (w, false, fun x => x)
  | Update f k => run k (f (fst w), snd w)
  | Await r k => run (k (json (backend _ r))) (fst w, (snd w ++ [issue r])%list)
  | Call callee k =>
      let '(w1, later1) := start callee w in
      let '(w2, fulfilled, later2) := run k w1 in
      (w2, fulfilled, fun x => later2 (later1 x))
  end
with start (t : task) (w : world) : world * (world -> world) :=
  match t with
  | Done | Throw => (w, fun x => x)
  | Update f k => start k (f (fst w), snd w)
  | Await r k =>
      ((fst w, (snd w ++ [issue r])%list),
       fun x => let '(x1, _, later) := run (k (json (backend _ r))) x in later x1)
  | Call callee k =>
      let '(w1, later1) := start callee w in
      let '(w2, later2) := start k w1 in
      (w2, fun x => later2 (later1 x))
  end.

(** The state when the handler's own promise settles. *)
Definition completes (t : task) (st : State) : State :=
  fst (fst (fst (run t (st, [])))).

(** The state once the calls it did not await have finished too. *)
Definition settles (t : task) (st : State) : State :=
  let '(w, _, later) := run t (st, []) in fst (later w).

End Run.



(** *** Sample backends and states *)

(** No endpoint can be reached. *)
Definition offline : Backend := fun _ _ => NetworkError.

(** A backend that knows the conversations 8 and 7 and allocates 8. *)
Definition healthy : Backend :=
  fun A r =>
    match r in request T return fetched T with
    | getConversations =>
        Response 200 (Some [mkConversation 8 "Yield"; mkConversation 7 "Complaints"])
    | createConversation => Response 200 (Some (mkConversation 8 "New conversation"))
    | delConversation _ => Response 200 (Some tt)
    | chat _ _ => Response 200 (Some "All batches were released.")
    | getChatHistory _ => Response 200 (Some [mkMessage user "Status?"])
    end.


(** Conversation 7 is open, with one exchange on screen. *)
Definition talking : State :=
  mkState [mkConversation 7 "Complaints"; mkConversation 5 "Press-A"] (Some 7)
          [mkMessage user "Status?"; mkMessage assistant "Stable."] "Trends?" false.

(** Nothing selected yet, a question typed. *)
Definition fresh : State := mkState [] None [] "x" false.



(** *** parseMarkdown (lines 5-11), on ASCII text *)

(** What [.] of a regular expression does not match. *)
Definition is_line_terminator (c : Ascii.ascii) : bool :=
  let n := Ascii.nat_of_ascii c in ((n =? 10) || (n =? 13))%nat.

Fixpoint drop (n : nat) (s : string) : string :=
  match n, s with
  | S k, String _ rest => drop k rest
  | _, _ => s
  end.

(** The lazy group [(.*?)] followed by the delimiter [d]: the shortest run
    of characters, none a line terminator, after which [d] stands. *)
Fixpoint find_close (d s : string) : option string :=
  if String.prefix d s then Some EmptyString
  else
    match s with
    | EmptyString => None
    | String c rest =>
        if is_line_terminator c then None
        else
          match find_close d rest with
          | Some content => Some (String c content)
          | None => None
          end
    end.

(** [s.replace(/d(.*?)d/g, opening + "$1" + closing)]: at each index that
    no earlier match covers, the pattern is tried; a match is replaced and
    its characters are skipped. *)
Fixpoint replace_pairs (d opening closing : string) (skip : nat) (s : string) : string :=
  match s with
  | EmptyString => EmptyString
  | String c rest =>
      match skip with
      | S k => replace_pairs d opening closing k rest
      | O =>
          if String.prefix d s then
            match find_close d (drop (String.length d) s) with
            | Some content =>
                (opening ++ content ++ closing
                 ++ replace_pairs d opening closing
                      (String.length d + String.length content + String.length d - 1)
                      rest)%string
            | None => String c (replace_pairs d opening closing 0 rest)
            end
          else String c (replace_pairs d opening closing 0 rest)
      end
  end.

Definition newline : Ascii.ascii := Ascii.ascii_of_nat 10.

(** [s.replace(/\n/g, '<br/>')] *)
Fixpoint replace_newlines (s : string) : string :=
  match s with
  | EmptyString => EmptyString
  | String c rest =>
      if Ascii.eqb c newline then ("<br/>" ++ replace_newlines rest)%string
      else String c (replace_newlines rest)
  end.

Definition parseMarkdown (text : string) : string :=
  if String.eqb text "" then ""%string
  else
    replace_newlines
      (replace_pairs "*" "<em>" "</em>" 0
         (replace_pairs "**" "<strong>" "</strong>" 0 text)).

(** No character of [s] satisfies [p]. *)
Fixpoint free_of (p : Ascii.ascii -> bool) (s : string) : bool :=
  match s with
  | EmptyString => true
  | String c rest => negb (p c) && free_of p rest
  end.

Definition star : Ascii.ascii := Ascii.ascii_of_nat 42.

Definition is_star (c : Ascii.ascii) : bool := Ascii.eqb c star.
Definition is_newline (c : Ascii.ascii) : bool := Ascii.eqb c newline.

(** *** What a run leaves behind *)

(** The requests issued by a handler and by the calls it did not await,
    in order. *)
Definition issued (backend : Backend) (t : task) (st : State) : list sent :=
  let '(w, _, later) := run backend t (st, []) in snd (later w).


(** The messages a history request brings on screen: the history, or
    nothing when the request rejects. *)
Definition history_or_empty (backend : Backend) (convId : Z) : list Message :=
  match json (backend _ (getChatHistory convId)) with
  | Resolved history => history
  | Rejected => []
  end.

(** The assistant message that ends a turn: the reply of the backend, or
    the fallback text when the request rejects. *)
Definition reply_or_fallback (backend : Backend) (convId : Z) (text : string) : Message :=
  match json (backend _ (chat convId text)) with
  | Resolved response => mkMessage assistant response
  | Rejected => mkMessage assistant "Connection error."
  end.


(** The [disabled] attribute of the submit button (line 134). *)
Definition submit_disabled (st : State) : bool :=
  loading st || blank (input st).

End Chat.

(** ** api.js: streamSummary (lines 97-116) *)

Module Stream.

(** What the EventSource hands to its two handlers. [Message data] carries
    [JSON.parse(event.data)], [None] when the text does not parse. *)
Inductive event : Type :=
| Message (data : option value)
| Failure.

Section StreamSummary.

(** The caller's own state, and the three callbacks acting on it;
    [onDone] and [onError] are called through [?.] and may be absent. *)
Variable Caller : Type.
Variable onChunk : value -> Caller -> Caller.
Variable onDone : option (Caller -> Caller).
Variable onError : option (value -> Caller -> Caller).

Record channel : Type := mkChannel {
  closed : bool;
  caller : Caller
}.

Definition close (c : channel) : channel := mkChannel true (caller c).

Definition call_onDone (c : channel) : channel :=
  match onDone with
  | Some f => mkChannel (closed c) (f (caller c))
  | None => c
  end.

Definition call_onError (msg : value) (c : channel) : channel :=
  match onError with
  | Some f => mkChannel (closed c) (f msg (caller c))
  | None => c
  end.

Definition call_onChunk (text : value) (c : channel) : channel :=
  mkChannel (closed c) (onChunk text (caller c)).

(** [eventSource.onmessage].  An exception of the handler (the data does
    not parse, or parses to null) leaves the channel as it is. *)
Definition onmessage (parsed : option value) (c : channel) : channel :=
  match parsed with
  | None => c
  | Some data =>
      if nullish data then c
      else if truthy (opt_get data "done") then call_onDone (close c)
      else if truthy (opt_get data "error")
           then call_onError (opt_get data "error") (close c)
      else if truthy (opt_get data "text")
           then call_onChunk (opt_get data "text") c
      else c
  end.

(** [eventSource.onerror]. *)
Definition onerror (c : channel) : channel :=
  call_onError (JStr "Connection error") (close c).

(** An EventSource dispatches nothing once it is closed. *)
Definition dispatch (c : channel) (e : event) : channel :=
  if closed c then c
  else
    match e with
    | Message data => onmessage data c
    | Failure => onerror c
    end.

(** [streamSummary(onChunk, onDone, onError)] opens the channel; the
    events then reach the handlers in order. *)
Definition streamSummary (events : list event) (start : Caller) : channel :=
  fold_left dispatch events (mkChannel false start).

End StreamSummary.

Arguments closed {Caller} c.
Arguments caller {Caller} c.

(** A caller that records what its callbacks receive. *)
Record Log : Type := mkLog {
  output : string;
  completions : nat;
  errors : list value
}.

Definition text_of (v : value) : string :=
  match v with
  | JStr s => s
  | _ => ""
  end.

Definition logChunk (text : value) (l : Log) : Log :=
  mkLog (output l ++ text_of text) (completions l) (errors l).

Definition logDone (l : Log) : Log :=
  mkLog (output l) (S (completions l)) (errors l).

Definition logError (msg : value) (l : Log) : Log :=
  mkLog (output l) (completions l) (errors l ++ [msg])%list.

Definition observe (events : list event) : channel Log :=
  streamSummary Log logChunk (Some logDone) (Some logError) events (mkLog "" 0 []).

Definition text_event (s : string) : event := Message (Some (JObj [("text", JStr s)])).
Definition error_event (s : string) : event := Message (Some (JObj [("error", JStr s)])).
Definition done_event : event := Message (Some (JObj [("done", JBool true)])).

(** Either the channel is open and no terminal callback was made, or it is
    closed and exactly one was. *)
Definition settled_once (c : channel Log) : Prop :=
  (closed c = false /\ completions (caller c) = 0%nat /\ errors (caller c) = []) \/
  (closed c = true /\ (completions (caller c) + length (errors (caller c)) = 1)%nat).

End Stream.

(** * Properties *)

Import Analytics.

(** ** The comparison summary *)

Lemma ge_number (coerce : value -> option Q) (q : Q) :
  js_ge coerce (JNum q) 0 = Qle_bool 0 q.
Proof. reflexivity. Qed.

Lemma le_number (coerce : value -> option Q) (q : Q) :
  js_le coerce (JNum q) 0 = Qle_bool q 0.
Proof. reflexivity. Qed.

Lemma Qle_bool_true (a b : Q) : a <= b -> Qle_bool a b = true.
Proof. intros H. now apply Qle_bool_iff. Qed.

Lemma Qle_bool_false (a b : Q) : b < a -> Qle_bool a b = false.
Proof.
  intros H. destruct (Qle_bool a b) eqn:E; [|reflexivity].
  apply Qle_bool_iff in E. exfalso. exact (Qlt_not_le _ _ H E).
Qed.

(** C1. In the comparison summary a batches or yield percentage that is not
    negative is shown green (good) and a negative one red (bad); the hardness
    percentage is shown blue (neutral) whatever the field holds; a complaints
    percentage that is not positive is shown green and a positive one red.
    With all four percentages at -5 the classes are bad, bad, neutral, good. *)
Theorem comparison_polarity_table :
  forall (coerce : value -> option Q) (comparison : value) (b y c : Q),
    change comparison "batches_pct" = JNum b ->
    change comparison "yield_pct" = JNum y ->
    change comparison "complaints_pct" = JNum c ->
    (0 <= b -> semantic_of (batches_class coerce comparison) = Some Good) /\
    (b < 0 -> semantic_of (batches_class coerce comparison) = Some Bad) /\
    (0 <= y -> semantic_of (yield_class coerce comparison) = Some Good) /\
    (y < 0 -> semantic_of (yield_class coerce comparison) = Some Bad) /\
    semantic_of (hardness_class coerce comparison) = Some Neutral /\
    (c <= 0 -> semantic_of (complaints_class coerce comparison) = Some Good) /\
    (0 < c -> semantic_of (complaints_class coerce comparison) = Some Bad) /\
    map semantic_of
        [ batches_class coerce (comparison_of (-5) (-5) (-5) (-5));
          yield_class coerce (comparison_of (-5) (-5) (-5) (-5));
          hardness_class coerce (comparison_of (-5) (-5) (-5) (-5));
          complaints_class coerce (comparison_of (-5) (-5) (-5) (-5)) ]
    = [Some Bad; Some Bad; Some Neutral; Some Good].
Proof.
  intros coerce comparison b y c Hb Hy Hc.
  unfold batches_class, yield_class, hardness_class, complaints_class.
  rewrite Hb, Hy, Hc, !ge_number, le_number.
  repeat split.
  - intros H. now rewrite (Qle_bool_true _ _ H).
  - intros H. now rewrite (Qle_bool_false _ _ H).
  - intros H. now rewrite (Qle_bool_true _ _ H).
  - intros H. now rewrite (Qle_bool_false _ _ H).
  - now destruct (js_ge coerce (change comparison "hardness_pct") 0).
  - intros H. now rewrite (Qle_bool_true _ _ H).
  - intros H. now rewrite (Qle_bool_false _ _ H).
Qed.

Lemma comparison_polarity_table_witness :
  semantic_of (batches_class (fun _ => None) (comparison_of 3 (-5) 0 (-5))) = Some Good /\
  semantic_of (yield_class (fun _ => None) (comparison_of 3 (-5) 0 (-5))) = Some Bad /\
  semantic_of (complaints_class (fun _ => None) (comparison_of 3 (-5) 0 (-5))) = Some Good.
Proof.
  destruct (comparison_polarity_table (fun _ => None) (comparison_of 3 (-5) 0 (-5))
              3 (-5) (-5) eq_refl eq_refl eq_refl)
    as (Hb & _ & _ & Hy & _ & Hc & _).
  split; [|split].
  - apply Hb. discriminate.
  - apply Hy. reflexivity.
  - apply Hc. discriminate.
Defined.

(** ** The radar vector *)

Lemma or_else_zero (v : value) :
  truthy v = false \/ in_range v ->
  in_range (or_else v (JNum 0)) /\
  (truthy v = false -> or_else v (JNum 0) = JNum 0).
Proof.
  intros [F | R]; unfold or_else.
  - rewrite F. split; [|reflexivity].
    exists 0. repeat split; discriminate.
  - destruct (truthy v) eqn:T.
    + split; [exact R | discriminate].
    + split; [|reflexivity].
      exists 0. repeat split; discriminate.
Qed.

(** C3. For a well-formed Overview (each of the four source fields missing,
    falsy, or a number between 0 and 100) the radar data has exactly four
    entries, for yield, QC pass rate, calibration pass rate and quality
    score in this order; the value of each entry is a number between 0 and
    100, and it is 0 when the source field is missing or falsy. *)
Theorem radarData_four_entries :
  forall overview : value,
    well_formed overview ->
    length (radarData overview) = 4%nat /\
    map (fun e => opt_get e "metric") (radarData overview)
      = [JStr "Yield"; JStr "QC Pass"; JStr "Calibrations OK"; JStr "Quality Score"] /\
    Forall (fun e => in_range (opt_get e "value")) (radarData overview) /\
    Forall2 (fun source e => truthy source = false -> opt_get e "value" = JNum 0)
            (radar_sources overview) (radarData overview).
Proof.
  intros overview WF. unfold well_formed, radar_sources in WF.
  inversion_clear WF as [|? ? H1 WF1].
  inversion_clear WF1 as [|? ? H2 WF2].
  inversion_clear WF2 as [|? ? H3 WF3].
  inversion_clear WF3 as [|? ? H4 _].
  destruct (or_else_zero _ H1) as [R1 Z1].
  destruct (or_else_zero _ H2) as [R2 Z2].
  destruct (or_else_zero _ H3) as [R3 Z3].
  destruct (or_else_zero _ H4) as [R4 Z4].
  split; [reflexivity|]. split; [reflexivity|]. split.
  - unfold radarData. repeat constructor; assumption.
  - unfold radarData, radar_sources. repeat constructor; assumption.
Qed.

Lemma radarData_four_entries_witness :
  map (fun e => opt_get e "value") (radarData sparse_overview)
    = [JNum 0; JNum 0; JNum 100; JNum (173 # 2)] /\
  length (radarData sparse_overview) = 4%nat.
Proof.
  split; [reflexivity|].
  apply (radarData_four_entries sparse_overview).
  unfold well_formed, radar_sources, sparse_overview.
  constructor; [left; reflexivity|].
  constructor; [left; reflexivity|].
  constructor; [right; exists 100; repeat split; discriminate|].
  constructor; [right; exists (173 # 2); repeat split; discriminate|].
  constructor.
Defined.

(** ** The supplier distribution *)

Lemma pie_entry_reduced (s : value) :
  nullish s = false -> pie_entry s = Some (reduced s).
Proof. intros H. unfold pie_entry, get. now rewrite H. Qed.

Lemma map_entries_reduced (l : list value) :
  Forall (fun s => nullish s = false) l ->
  map_entries l = Some (map reduced l).
Proof.
  induction 1 as [|s rest Hs _ IH]; [reflexivity|].
  simpl. now rewrite (pie_entry_reduced s Hs), IH.
Qed.

(** C4. When the snapshot holds a list of n suppliers (none of the first
    five a null), the supplier distribution is the first min(5, n) of them,
    in the order of the backend, each reduced to its name, its
    total_deliveries as value and its approval_rate as rate. *)
Theorem supplierPieData_first_five :
  forall (suppliers : value) (l : list value),
    opt_get suppliers "suppliers" = JArr l ->
    Forall (fun s => nullish s = false) (firstn 5 l) ->
    exists out : list value,
      supplierPieData suppliers = Some out /\
      out = map reduced (firstn 5 l) /\
      length out = Nat.min 5 (length l).
Proof.
  intros suppliers l Hl Hobj.
  exists (map reduced (firstn 5 l)). split; [|split].
  - unfold supplierPieData. rewrite Hl. now apply map_entries_reduced.
  - reflexivity.
  - now rewrite length_map, length_firstn.
Qed.

Lemma supplierPieData_first_five_witness :
  exists out : list value,
    supplierPieData six_suppliers = Some out /\
    map (fun e => opt_get e "name") out
      = [JStr "S6"; JStr "S2"; JStr "S5"; JStr "S1"; JStr "S4"].
Proof.
  destruct (supplierPieData_first_five six_suppliers _ eq_refl) as (out & H & E & _).
  - repeat constructor.
  - exists out. split; [exact H|]. rewrite E. reflexivity.
Defined.

(** ** The aggregate load *)

Lemma sub_fetches_resources (fetch : string -> fetched value) :
  sub_fetches fetch = map (fun url => json (fetch url)) resources.
Proof. reflexivity. Qed.

Lemma all_rejected {A : Type} (ps : list (settled A)) :
  In Rejected ps -> all ps = Rejected.
Proof.
  induction ps as [|p ps IH]; simpl; [tauto|].
  intros [-> | H]; [reflexivity|].
  destruct p; [|reflexivity]. now rewrite (IH H).
Qed.

Lemma loadAllData_rejected (fetch : string -> fetched value) (st : State) :
  all (sub_fetches fetch) = Rejected ->
  loadAllData fetch st = setLoading false st.
Proof. intros H. unfold loadAllData. rewrite H. reflexivity. Qed.

(** C2, as stated, fails: a sub-fetch that gets a non-success response with a
    JSON body does not abort the load. With the overview endpoint answering
    404, the load publishes all five bodies, the error body among them. *)
Lemma loadAllData_non_success_counterexample :
  ~ (forall (fetch : string -> fetched value) (st : State),
       (exists url, In url resources /\ failed (fetch url) = true) ->
       view (loadAllData fetch st) = view st).
Proof.
  intros H.
  specialize (H overview_down initial).
  assert (E : exists url, In url resources /\ failed (overview_down url) = true).
  { exists overview_url. split; [left; reflexivity | reflexivity]. }
  specialize (H E). vm_compute in H. discriminate H.
Qed.

(** C2, amended. If one of the five sub-fetches rejects (the network fails,
    or the body of the response is not JSON), the load leaves the five
    view-model fields as they were and ends with [loading] false. *)
Theorem loadAllData_all_or_nothing :
  forall (fetch : string -> fetched value) (st : State),
    (exists url, In url resources /\ rejects (fetch url) = true) ->
    view (loadAllData fetch st) = view st /\
    loading (loadAllData fetch st) = false.
Proof.
  intros fetch st (url & Hin & Hrej).
  rewrite loadAllData_rejected; [split; reflexivity|].
  apply all_rejected. rewrite sub_fetches_resources.
  apply in_map_iff. exists url. split; [|exact Hin].
  unfold rejects in Hrej. now destruct (json (fetch url)).
Qed.

Lemma loadAllData_all_or_nothing_witness :
  view (loadAllData (fun url => if String.eqb url suppliers_url
                                then NetworkError else overview_down url) initial)
    = [JNull; JNull; JNull; JNull; JNull].
Proof.
  apply (loadAllData_all_or_nothing
           (fun url => if String.eqb url suppliers_url
                       then NetworkError else overview_down url) initial).
  exists suppliers_url. split; [|reflexivity].
  right; right; left; reflexivity.
Defined.

(** ** The chat session *)

Import Chat.

Section ChatRuns.

Variable backend : Backend.

Lemma run_Update (f : Chat.State -> Chat.State) (k : task) (w : world) :
  run backend (Update f k) w = run backend k (f (fst w), snd w).
Proof. reflexivity. Qed.

Lemma run_Await {A : Type} (r : request A) (k : settled A -> task) (w : world) :
  run backend (Await r k) w
  = run backend (k (json (backend _ r))) (fst w, (snd w ++ [issue r])%list).
Proof. reflexivity. Qed.

Lemma run_Call (callee k : task) (w : world) :
  run backend (Call callee k) w
  = (fst (run backend k (fst (start backend callee w))),
     fun x => snd (run backend k (fst (start backend callee w)))
                (snd (start backend callee w) x)).
Proof.
  simpl. destruct (start backend callee w) as [w1 later1].
  simpl. destruct (run backend k w1) as [[w2 fulfilled] later2]. reflexivity.
Qed.

(** A handler stopped by the guard of line 59 is the empty task. *)
Lemma handleSubmit_guarded (closure : Chat.State) :
  blank (input closure) = true \/ Chat.loading closure = true ->
  handleSubmit closure = Done.
Proof.
  intros [H | H]; unfold handleSubmit; rewrite H; [reflexivity|].
  now rewrite orb_true_r.
Qed.

(** Past the guard, with a conversation open, the handler is the turn. *)
Lemma handleSubmit_open (closure : Chat.State) (convId : Z) :
  blank (input closure) = false -> Chat.loading closure = false ->
  currentConvId closure = Some convId -> convId <> 0%Z ->
  handleSubmit closure = send closure convId.
Proof.
  intros Hb Hl Hc Hz. unfold handleSubmit. rewrite Hb, Hl, Hc. simpl.
  apply Z.eqb_neq in Hz. now rewrite Hz.
Qed.

End ChatRuns.

Section ChatTurn.

Local Open Scope Z_scope.

Variable backend : Backend.


(** At the moment the promise of a turn settles, the message list has
    grown by the user's message and one assistant message, and [loading]
    is false again. *)
Lemma send_completes (closure : Chat.State) (convId : Z) (st : Chat.State) :
  completes backend (send closure convId) st
  = Chat.mkState (conversations st) (currentConvId st)
      (messages st ++
         [mkMessage user (input closure);
          mkMessage assistant
            match json (backend _ (chat convId (input closure))) with
            | Resolved response => response
            | Rejected => "Connection error."%string
            end])%list
      ""%string false.
Proof.
  unfold completes. simpl.
  destruct (backend string (chat convId (input closure))) as [|? [reply|]]; simpl;
    unfold Chat.setLoading, setMessages, setInput; simpl;
    now rewrite <- app_assoc.
Qed.

End ChatTurn.




(** C6. A submit that passes the guard while no conversation is selected,
    and whose conversation cannot be created, appends nothing: the state is
    untouched (no user message, no assistant message, the input not
    cleared), one request was issued, and the promise of the handler
    rejects. *)
Theorem handleSubmit_create_rejected :
  forall (backend : Backend) (closure : Chat.State) (w : world),
    blank (input closure) = false -> Chat.loading closure = false ->
    no_conversation (currentConvId closure) = true ->
    json (backend _ createConversation) = Rejected ->
    fst (run backend (handleSubmit closure) w)
    = ((fst w, (snd w ++ [issue createConversation])%list), false).
Proof.
  intros backend closure w Hb Hl Hn Hr. unfold handleSubmit.
  rewrite Hb, Hl. simpl orb. cbv iota.
  destruct (currentConvId closure) as [c|];
    [rewrite Hn|]; rewrite run_Await, Hr; reflexivity.
Qed.

Lemma handleSubmit_create_rejected_witness :
  fst (run offline (handleSubmit fresh) (fresh, []))
  = ((fresh, [issue createConversation]), false).
Proof.
  apply (handleSubmit_create_rejected offline fresh (fresh, []));
    reflexivity.
Defined.

(** C10. When the delete request rejects, the handler leaves the state as
    it was (the conversation listed, the selection and the messages
    untouched); its own promise fulfils, the error going to the console
    only, and nothing is left to run later. *)
Theorem deleteConversation_rejected :
  forall (backend : Backend) (closure : Chat.State) (convId : Z) (w : world),
    json (backend _ (delConversation convId)) = Rejected ->
    fst (run backend (deleteConversation closure convId) w)
    = ((fst w, (snd w ++ [issue (delConversation convId)])%list), true) /\
    forall x : world, snd (run backend (deleteConversation closure convId) w) x = x.
Proof.
  intros backend closure convId w Hr. unfold deleteConversation.
  rewrite run_Await, Hr. split; reflexivity.
Qed.

Lemma deleteConversation_rejected_witness :
  fst (run offline (deleteConversation talking 7%Z) (talking, []))
  = ((talking, [issue (delConversation 7%Z)]), true).
Proof.
  apply (deleteConversation_rejected offline talking 7%Z (talking, [])).
  reflexivity.
Defined.

(** What [deleteConversation] does to the state once the request resolved. *)
Lemma deleteConversation_settles (backend : Backend) (st : Chat.State) (convId : Z) (u : unit) :
  json (backend _ (delConversation convId)) = Resolved u ->
  settles backend (deleteConversation st convId) st
  = let kept := filter (fun c => negb (id c =? convId)%Z) (conversations st) in
    match currentConvId st with
    | Some cur =>
        if (cur =? convId)%Z
        then Chat.mkState kept None [] (input st) (Chat.loading st)
        else Chat.mkState kept (Some cur) (messages st) (input st) (Chat.loading st)
    | None => Chat.mkState kept None (messages st) (input st) (Chat.loading st)
    end.
Proof.
  intros Hr. unfold settles, deleteConversation.
  rewrite run_Await, Hr, run_Update.
  destruct st as [convs [cur|] msgs inp ld]; simpl; [|reflexivity].
  destruct (cur =? convId)%Z; reflexivity.
Qed.

(** C8. Once the delete request has resolved, the conversation is gone
    from the local list and the others stay, in their order; if it was the
    active one, the active id is null and the messages are empty, whatever
    conversations remain; otherwise the selection and the messages stay. *)
Theorem deleteConversation_resolved :
  forall (backend : Backend) (st : Chat.State) (convId : Z) (u : unit),
    json (backend _ (delConversation convId)) = Resolved u ->
    let st' := settles backend (deleteConversation st convId) st in
    conversations st' = filter (fun c => negb (id c =? convId)%Z) (conversations st) /\
    ~ In convId (map id (conversations st')) /\
    (currentConvId st = Some convId ->
       currentConvId st' = None /\ messages st' = []) /\
    (currentConvId st <> Some convId ->
       currentConvId st' = currentConvId st /\ messages st' = messages st).
Proof.
  intros backend st convId u Hr st'. subst st'.
  rewrite (deleteConversation_settles backend st convId u Hr).
  assert (K : conversations
                match currentConvId st with
                | Some cur =>
                    if (cur =? convId)%Z
                    then Chat.mkState (filter (fun c => negb (id c =? convId)%Z) (conversations st))
                           None [] (input st) (Chat.loading st)
                    else Chat.mkState (filter (fun c => negb (id c =? convId)%Z) (conversations st))
                           (Some cur) (messages st) (input st) (Chat.loading st)
                | None => Chat.mkState (filter (fun c => negb (id c =? convId)%Z) (conversations st))
                            None (messages st) (input st) (Chat.loading st)
                end
              = filter (fun c => negb (id c =? convId)%Z) (conversations st)).
  { destruct (currentConvId st) as [cur|]; [destruct (cur =? convId)%Z|]; reflexivity. }
  cbv zeta. split; [exact K|]. split; [|split].
  - rewrite K. intros Hin. apply in_map_iff in Hin. destruct Hin as (c & Hid & Hc).
    apply filter_In in Hc. destruct Hc as [_ Hc]. rewrite Hid, Z.eqb_refl in Hc.
    discriminate.
  - intros Hact. rewrite Hact, Z.eqb_refl. split; reflexivity.
  - intros Hact. destruct (currentConvId st) as [cur|]; [|split; reflexivity].
    destruct (Z.eqb_spec cur convId) as [E|_]; [|split; reflexivity].
    elim Hact. now rewrite E.
Qed.

Lemma deleteConversation_resolved_witness :
  settles healthy (deleteConversation talking 7%Z) talking
  = Chat.mkState [mkConversation 5%Z "Press-A"] None [] "Trends?" false /\
  currentConvId (settles healthy (deleteConversation talking 7%Z) talking) = None.
Proof.
  split; [reflexivity|].
  apply (deleteConversation_resolved healthy talking 7%Z tt); reflexivity.
Defined.

(** ** The invariant of the session state *)








(** ** The summary stream *)

Import Stream.

Section Dispatch.

Variable Caller : Type.
Variable onChunk : value -> Caller -> Caller.
Variable onDone : option (Caller -> Caller).
Variable onError : option (value -> Caller -> Caller).

Let deliver := dispatch Caller onChunk onDone onError.

(** Once closed, the channel stays as it is whatever is sent. *)
Lemma dispatch_closed (events : list event) (c : channel Caller) :
  closed c = true -> fold_left deliver events c = c.
Proof.
  intros H. induction events as [|e events IH]; [reflexivity|].
  simpl. replace (deliver c e) with c; [exact IH|].
  unfold deliver, dispatch. now rewrite H.
Qed.

Lemma streamSummary_app (before after : list event) (start : Caller) :
  streamSummary Caller onChunk onDone onError (before ++ after) start
  = fold_left deliver after
      (streamSummary Caller onChunk onDone onError before start).
Proof. unfold streamSummary. apply fold_left_app. Qed.

(** An event that closes the channel decides the outcome. *)
Lemma streamSummary_closing (before after : list event) (e : event) (start : Caller) :
  closed (deliver (streamSummary Caller onChunk onDone onError before start) e) = true ->
  streamSummary Caller onChunk onDone onError (before ++ e :: after) start
  = deliver (streamSummary Caller onChunk onDone onError before start) e.
Proof.
  intros H. rewrite streamSummary_app. simpl. now apply dispatch_closed.
Qed.

End Dispatch.

Lemma nonempty_truthy (s : string) : s <> "" -> truthy (JStr s) = true.
Proof. intros H. simpl. apply String.eqb_neq in H. now rewrite H. Qed.

(** C7, as stated, fails: the handler tells the payloads apart by the
    truthiness of their fields, so an error payload whose message is the
    empty string neither closes the channel nor reaches the error
    callback. *)
Lemma streamSummary_empty_error_counterexample :
  ~ (forall s : string,
       closed (observe [error_event s]) = true /\
       errors (caller (observe [error_event s])) = [JStr s]).
Proof.
  intros H. destruct (H "") as [C _]. discriminate C.
Qed.

(** C7, amended. While the channel is open, after any events: a done
    payload closes it and calls the completion callback once, whatever
    follows; an error payload with a non-empty message closes it and calls
    the error callback once with that message; a text payload with a
    non-empty text calls the chunk callback with the text and leaves the
    channel open; a transport error closes it and calls the error callback
    with "Connection error". The events a, b, done give the output "ab",
    one completion and no error; the events a, error x give the output "a",
    one error "x" and no completion. *)
Theorem streamSummary_by_shape :
  forall events rest : list event,
    closed (observe events) = false ->
    observe (events ++ done_event :: rest)
      = mkChannel Log true (logDone (caller (observe events))) /\
    (forall s : string, s <> "" ->
       observe (events ++ error_event s :: rest)
       = mkChannel Log true (logError (JStr s) (caller (observe events)))) /\
    (forall s : string, s <> "" ->
       observe (events ++ [text_event s])
       = mkChannel Log false (logChunk (JStr s) (caller (observe events)))) /\
    observe (events ++ Failure :: rest)
      = mkChannel Log true (logError (JStr "Connection error") (caller (observe events))) /\
    observe [text_event "a"; text_event "b"; done_event]
      = mkChannel Log true (mkLog "ab" 1 []) /\
    observe [text_event "a"; error_event "x"]
      = mkChannel Log true (mkLog "a" 0 [JStr "x"]).
Proof.
  intros events rest Open. unfold observe in *.
  split; [|split; [|split; [|split; [|split; reflexivity]]]].
  - rewrite streamSummary_closing;
      destruct (streamSummary _ _ _ _ events _) as [cl log];
      simpl in Open; subst cl; reflexivity.
  - intros s Hs. pose proof (nonempty_truthy s Hs) as T. simpl in T.
    rewrite streamSummary_closing;
      destruct (streamSummary _ _ _ _ events _) as [cl log];
      simpl in Open; subst cl;
      unfold dispatch, onmessage, error_event, text_event; simpl; rewrite T; reflexivity.
  - intros s Hs. pose proof (nonempty_truthy s Hs) as T. simpl in T.
    rewrite streamSummary_app.
    destruct (streamSummary _ _ _ _ events _) as [cl log].
    simpl in Open; subst cl;
      unfold dispatch, onmessage, error_event, text_event; simpl; rewrite T; reflexivity.
  - rewrite streamSummary_closing;
      destruct (streamSummary _ _ _ _ events _) as [cl log];
      simpl in Open; subst cl; reflexivity.
Qed.

Lemma streamSummary_by_shape_witness :
  observe ([text_event "a"] ++ error_event "x" :: [text_event "late"; done_event])
  = mkChannel Log true (mkLog "a" 0 [JStr "x"]).
Proof.
  destruct (streamSummary_by_shape [text_event "a"] [text_event "late"; done_event] eq_refl)
    as (_ & E & _).
  apply (E "x"). discriminate.
Defined.

(** * Further properties of the code *)

(** ** Analytics.jsx: the load and what is rendered after it *)

(** X1. When the five sub-fetches all fulfil, each state field receives the
    body of its own endpoint: overview, yearly summary, supplier
    performance, equipment analysis and period comparison, and [loading]
    ends false. *)
Theorem loadAllData_publishes_each_body :
  forall (fetch : string -> fetched value) (st : Analytics.State) (o y s e c : value),
    json (fetch overview_url) = Resolved o ->
    json (fetch yearly_url) = Resolved y ->
    json (fetch suppliers_url) = Resolved s ->
    json (fetch equipment_url) = Resolved e ->
    json (fetch (comparison_url None None None None)) = Resolved c ->
    loadAllData fetch st = Analytics.mkState o y s e c false.
Proof.
  intros fetch st o y s e c Ho Hy Hs He Hc.
  unfold loadAllData, sub_fetches, getAnalyticsOverview, getYearlySummary,
    getSupplierPerformance, getEquipmentAnalysis, getPeriodComparison.
  rewrite Ho, Hy, Hs, He, Hc. reflexivity.
Qed.

Lemma loadAllData_publishes_each_body_witness :
  loadAllData overview_down Analytics.initial
  = Analytics.mkState (JObj [("detail", JStr "Not Found")])
      (JObj [("has_data", JBool true)]) (JObj [("has_data", JBool true)])
      (JObj [("has_data", JBool true)]) (JObj [("has_data", JBool true)]) false.
Proof.
  apply (loadAllData_publishes_each_body overview_down Analytics.initial); reflexivity.
Defined.

(** X2. A reload that gets the same responses changes nothing: loading
    twice is loading once. *)
Theorem loadAllData_idempotent :
  forall (fetch : string -> fetched value) (st : Analytics.State),
    loadAllData fetch (loadAllData fetch st) = loadAllData fetch st.
Proof.
  intros fetch st. unfold loadAllData.
  destruct (all (sub_fetches fetch)) as [data|]; reflexivity.
Qed.

Lemma loadAllData_when_rejecting (fetch : string -> fetched value) :
  (exists url, In url resources /\ rejects (fetch url) = true) ->
  forall st : Analytics.State, loadAllData fetch st = Analytics.setLoading false st.
Proof.
  intros (url & Hin & Hrej) st. apply loadAllData_rejected.
  apply all_rejected. rewrite sub_fetches_resources.
  apply in_map_iff. exists url. split; [|exact Hin].
  unfold rejects in Hrej. now destruct (json (fetch url)).
Qed.

(** X3. After a load the spinner is never left on. If a sub-fetch rejected,
    the component shows what the state held before the load: the no-data
    panel after the first load, the dashboard still when the earlier
    overview had data. *)
Theorem screen_after_load :
  forall (fetch : string -> fetched value) (st : Analytics.State),
    screen (loadAllData fetch st) <> Spinner /\
    ((exists url, In url resources /\ rejects (fetch url) = true) ->
     screen (loadAllData fetch st) = screen (Analytics.setLoading false st) /\
     screen (loadAllData fetch Analytics.initial) = NoData).
Proof.
  intros fetch st. split.
  - unfold loadAllData, screen.
    destruct (all (sub_fetches fetch)) as [data|]; simpl;
      match goal with |- (if ?b then _ else _) <> _ => destruct b end; discriminate.
  - intros H.
    rewrite !(loadAllData_when_rejecting fetch H). split; reflexivity.
Qed.

Lemma screen_after_load_witness :
  screen (loadAllData (fun url => if String.eqb url suppliers_url
                                  then NetworkError else overview_down url) Analytics.initial)
  = NoData.
Proof.
  apply (screen_after_load
           (fun url => if String.eqb url suppliers_url
                       then NetworkError else overview_down url) Analytics.initial).
  exists suppliers_url. split; [|reflexivity].
  right; right; left; reflexivity.
Defined.

(** ** Analytics.jsx: the suppliers tab *)

Lemma map_entries_length (l out : list value) :
  map_entries l = Some out -> length out = length l.
Proof.
  revert out. induction l as [|s rest IH]; simpl; intros out H.
  - now injection H as <-.
  - destruct (pie_entry s); [|discriminate].
    destruct (map_entries rest) as [es|]; [|discriminate].
    injection H as <-. simpl. now rewrite (IH es eq_refl).
Qed.

Lemma supplierPieData_length (suppliers : value) (out : list value) :
  supplierPieData suppliers = Some out -> (length out <= 5)%nat.
Proof.
  unfold supplierPieData.
  destruct (opt_get suppliers "suppliers") as [| | | | | |l|]; intros H;
    try discriminate; try (injection H as <-; simpl; lia).
  rewrite (map_entries_length _ _ H), length_firstn. lia.
Qed.

(** X4. Whatever the snapshot holds, a supplier distribution that is
    computed has at most five entries, and a snapshot that is null or has no
    suppliers field gives the empty distribution, not an error. *)
Theorem supplierPieData_at_most_five :
  forall suppliers : value,
    (forall out, supplierPieData suppliers = Some out -> (length out <= 5)%nat) /\
    (nullish (opt_get suppliers "suppliers") = true ->
     supplierPieData suppliers = Some []).
Proof.
  intros suppliers. split.
  - intros out. apply supplierPieData_length.
  - unfold supplierPieData.
    destruct (opt_get suppliers "suppliers"); simpl; intros H;
      try discriminate; reflexivity.
Qed.

Lemma supplierPieData_at_most_five_witness :
  supplierPieData JNull = Some [] /\
  forall out, supplierPieData six_suppliers = Some out -> (length out <= 5)%nat.
Proof.
  split.
  - apply (supplierPieData_at_most_five JNull). reflexivity.
  - apply (supplierPieData_at_most_five six_suppliers).
Defined.

(** X5. Every slice of the delivery pie gets a colour, and no two slices
    of one pie get the same colour: the distribution has at most five
    entries and the palette six colours. *)
Theorem pie_colours_distinct :
  forall (suppliers : value) (out : list value),
    supplierPieData suppliers = Some out ->
    NoDup (cell_fills out) /\ Forall (fun fill => fill <> None) (cell_fills out).
Proof.
  intros suppliers out H. apply supplierPieData_length in H.
  unfold cell_fills.
  destruct out as [|? [|? [|? [|? [|? [|? ?]]]]]]; simpl in H; try lia;
    split; vm_compute;
    repeat (constructor; [simpl; intuition discriminate|]); constructor.
Qed.

Lemma pie_colours_distinct_witness :
  exists out, supplierPieData six_suppliers = Some out /\ NoDup (cell_fills out).
Proof.
  destruct (supplierPieData six_suppliers) as [out|] eqn:E; [|discriminate E].
  exists out. split; [reflexivity|].
  apply (pie_colours_distinct six_suppliers out E).
Defined.

Lemma js_ge_number (coerce : value -> option Q) (q bound : Q) :
  js_ge coerce (JNum q) bound = Qle_bool bound q.
Proof. reflexivity. Qed.

(** X6. The colour of the rate column never gets worse as the approval
    rate grows: green from 98, yellow from 95, red below, so of two
    numeric rates the higher one is ranked at least as well. *)
Theorem rate_class_monotone :
  forall (coerce : value -> option Q) (s1 s2 : value) (r1 r2 : Q),
    opt_get s1 "approval_rate" = JNum r1 ->
    opt_get s2 "approval_rate" = JNum r2 ->
    r1 <= r2 ->
    (rank (rate_class coerce s1) <= rank (rate_class coerce s2))%nat /\
    (98 <= r1 -> rate_class coerce s1 = "text-green-600") /\
    (r1 < 95 -> rate_class coerce s1 = "text-red-600").
Proof.
  intros coerce s1 s2 r1 r2 H1 H2 Hle. unfold rate_class.
  rewrite H1, H2, !js_ge_number. split; [|split].
  - destruct (Qle_bool 98 r1) eqn:A1.
    + apply Qle_bool_iff in A1.
      rewrite (Qle_bool_true 98 r2 (Qle_trans _ _ _ A1 Hle)). unfold rank; simpl; lia.
    + destruct (Qle_bool 95 r1) eqn:B1.
      * apply Qle_bool_iff in B1.
        destruct (Qle_bool 98 r2); [unfold rank; simpl; lia|].
        rewrite (Qle_bool_true 95 r2 (Qle_trans _ _ _ B1 Hle)). unfold rank; simpl; lia.
      * unfold rank; simpl; lia.
  - intros H. now rewrite (Qle_bool_true _ _ H).
  - intros H.
    assert (H98 : r1 < 98) by (apply (Qlt_trans _ 95); [exact H | reflexivity]).
    now rewrite (Qle_bool_false _ _ H98), (Qle_bool_false _ _ H).
Qed.

Lemma rate_class_monotone_witness :
  (rank (rate_class (fun _ => None) (supplier "S4" 3 70))
   <= rank (rate_class (fun _ => None) (supplier "S1" 12 (193 # 2))))%nat.
Proof.
  apply (rate_class_monotone (fun _ => None) (supplier "S4" 3 70)
           (supplier "S1" 12 (193 # 2)) 70 (193 # 2) eq_refl eq_refl).
  discriminate.
Defined.

(** X7. The label and the badge of a supplier row always agree: Compliant
    on green, Watch on yellow, Critical on red; and any status other than
    the strings good and warning, a missing one too, is shown Critical. *)
Theorem status_label_matches_badge :
  forall s : value,
    (status_label s = "Compliant" <-> status_badge s = "bg-green-100 text-green-700") /\
    (status_label s = "Watch" <-> status_badge s = "bg-yellow-100 text-yellow-700") /\
    (status_label s = "Critical" <-> status_badge s = "bg-red-100 text-red-700") /\
    (opt_get s "status" <> JStr "good" -> opt_get s "status" <> JStr "warning" ->
     status_label s = "Critical").
Proof.
  intros s. unfold status_label, status_badge.
  repeat split;
    try (destruct (status_is s "good"); [|destruct (status_is s "warning")];
         intros H; try reflexivity; discriminate H).
  intros Hg Hw. unfold status_is.
  destruct (opt_get s "status") as [| | | | |x| |]; try reflexivity.
  destruct (String.eqb_spec x "good") as [->|_]; [now elim Hg|].
  destruct (String.eqb_spec x "warning") as [->|_]; [now elim Hw|].
  reflexivity.
Qed.

Lemma status_label_matches_badge_witness :
  status_label (JObj [("status", JStr "unknown")]) = "Critical".
Proof.
  apply (status_label_matches_badge (JObj [("status", JStr "unknown")]));
    discriminate.
Defined.

(** X8. The sign printed before a percentage follows the same test for the
    four metrics: a plus exactly when the number is not negative. So for
    complaints a rise is red with a plus, a drop is green without one, and
    a change of zero is green with a plus. *)
Theorem complaints_sign_and_colour :
  forall (coerce : value -> option Q) (comparison : value) (k : string) (q : Q),
    change comparison k = JNum q ->
    (0 <= q -> sign_prefix coerce comparison k = "+") /\
    (q < 0 -> sign_prefix coerce comparison k = "") /\
    (k = "complaints_pct" ->
     (0 < q -> semantic_of (complaints_class coerce comparison) = Some Bad /\
               sign_prefix coerce comparison k = "+") /\
     (q < 0 -> semantic_of (complaints_class coerce comparison) = Some Good /\
               sign_prefix coerce comparison k = "") /\
     (q == 0 -> semantic_of (complaints_class coerce comparison) = Some Good /\
                sign_prefix coerce comparison k = "+")).
Proof.
  intros coerce comparison k q Hq. unfold sign_prefix.
  rewrite Hq, ge_number.
  split; [|split].
  - intros H. now rewrite (Qle_bool_true _ _ H).
  - intros H. now rewrite (Qle_bool_false _ _ H).
  - intros ->. unfold complaints_class. rewrite Hq, le_number.
    split; [|split]; intros H.
    + rewrite (Qle_bool_false _ _ H), (Qle_bool_true 0 q (Qlt_le_weak _ _ H)).
      split; reflexivity.
    + rewrite (Qle_bool_true q 0 (Qlt_le_weak _ _ H)), (Qle_bool_false _ _ H).
      split; reflexivity.
    + assert (A : q <= 0) by (rewrite H; apply Qle_refl).
      assert (B : 0 <= q) by (rewrite H; apply Qle_refl).
      rewrite (Qle_bool_true _ _ A), (Qle_bool_true _ _ B). split; reflexivity.
Qed.

Lemma complaints_sign_and_colour_witness :
  semantic_of (complaints_class (fun _ => None) (comparison_of 3 (-5) 0 0)) = Some Good /\
  sign_prefix (fun _ => None) (comparison_of 3 (-5) 0 0) "complaints_pct" = "+".
Proof.
  apply (complaints_sign_and_colour (fun _ => None) (comparison_of 3 (-5) 0 0)
           "complaints_pct" 0 eq_refl); reflexivity.
Defined.

(** ** Chat.jsx: the handlers, one at a time *)

Section ChatHandlers.

Local Open Scope Z_scope.

Variable backend : Backend.

(** What a call of [loadConversations] does to the live world [x] once the
    list is in. *)
Lemma loadConversations_later (closure : Chat.State) (w x : world) :
  snd (start backend (loadConversations closure) w) x
  = match json (backend _ getConversations) with
    | Rejected => x
    | Resolved [] =>
        (Chat.mkState [] (currentConvId (fst x)) (messages (fst x))
           (input (fst x)) (Chat.loading (fst x)), snd x)
    | Resolved (first :: rest) =>
        if no_conversation (currentConvId closure)
        then (Chat.mkState (first :: rest) (Some (id first)) (history_or_empty backend (id first))
                (input (fst x)) (Chat.loading (fst x)),
              (snd x ++ [issue (getChatHistory (id first))])%list)
        else (Chat.mkState (first :: rest) (currentConvId (fst x)) (messages (fst x))
                (input (fst x)) (Chat.loading (fst x)), snd x)
    end.
Proof.
  unfold history_or_empty. simpl.
  destruct (backend _ getConversations) as [|status [convs|]]; simpl;
    [now destruct x | | now destruct x].
  destruct convs as [|first rest]; simpl; [reflexivity|].
  destruct (no_conversation (currentConvId closure)); simpl; [|reflexivity].
  destruct (backend _ (getChatHistory (id first))) as [|? [history|]]; reflexivity.
Qed.

(** The world in which a handler that starts with the list request ends. *)
Lemma loadConversations_world (closure st : Chat.State) :
  (settles backend (loadConversations closure) st,
   issued backend (loadConversations closure) st)
  = snd (start backend (loadConversations closure) (st, []))
      (st, [issue getConversations]).
Proof.
  unfold settles, issued, loadConversations. rewrite run_Await. simpl.
  destruct (run backend _ _) as [[x1 ok] later]. now destruct (later x1).
Qed.

End ChatHandlers.

(** X9. [selectConversation] always ends with the requested conversation
    selected; the messages on screen become its history, or nothing when
    the history cannot be loaded. The list, the input and [loading] are
    untouched and one request goes out. *)
Theorem selectConversation_settles :
  forall (backend : Backend) (convId : Z) (st : Chat.State),
    settles backend (selectConversation convId) st
    = Chat.mkState (conversations st) (Some convId) (history_or_empty backend convId)
        (input st) (Chat.loading st) /\
    issued backend (selectConversation convId) st = [issue (getChatHistory convId)] /\
    (json (backend _ (getChatHistory convId)) = Rejected ->
     messages (settles backend (selectConversation convId) st) = []).
Proof.
  intros backend convId st.
  unfold settles, issued, selectConversation, history_or_empty.
  rewrite run_Update, run_Await.
  destruct (json (backend _ (getChatHistory convId))) as [history|];
    repeat split; intros; discriminate.
Qed.

(** X10. [createNewConversation]: when the backend allocates a
    conversation it is put first in the list and selected, and the
    messages are cleared; when the request rejects the state is untouched
    and the handler's promise still fulfils. *)
Theorem createNewConversation_settles :
  forall (backend : Backend) (st : Chat.State),
    (forall conv, json (backend _ createConversation) = Resolved conv ->
       settles backend createNewConversation st
       = Chat.mkState (conv :: conversations st) (Some (id conv)) []
           (input st) (Chat.loading st)) /\
    (json (backend _ createConversation) = Rejected ->
       settles backend createNewConversation st = st /\
       snd (fst (run backend createNewConversation (st, []))) = true).
Proof.
  intros backend st. unfold settles, createNewConversation. rewrite run_Await.
  split.
  - intros conv H. rewrite H. reflexivity.
  - intros H. rewrite H. split; reflexivity.
Qed.

Lemma createNewConversation_settles_witness :
  settles healthy createNewConversation talking
  = Chat.mkState [mkConversation 8%Z "New conversation"; mkConversation 7%Z "Complaints";
                  mkConversation 5%Z "Press-A"] (Some 8%Z) [] "Trends?" false /\
  settles offline createNewConversation talking = talking.
Proof.
  split.
  - apply (createNewConversation_settles healthy talking). reflexivity.
  - apply (createNewConversation_settles offline talking). reflexivity.
Defined.

(** X11. A refresh of the list, run with a conversation selected, replaces
    the list and leaves the selection and the messages alone, with no
    history request; when the list request rejects nothing changes. Run
    with nothing selected and a list that is not empty, it selects the
    first conversation of the list and brings its history on screen. *)
Theorem loadConversations_settles :
  forall (backend : Backend) (st : Chat.State),
    (json (backend _ getConversations) = Rejected ->
       settles backend (loadConversations st) st = st) /\
    (forall convs,
       json (backend _ getConversations) = Resolved convs ->
       no_conversation (currentConvId st) = false ->
       settles backend (loadConversations st) st
       = Chat.mkState convs (currentConvId st) (messages st) (input st) (Chat.loading st) /\
       issued backend (loadConversations st) st = [issue getConversations]) /\
    (forall first rest,
       json (backend _ getConversations) = Resolved (first :: rest) ->
       no_conversation (currentConvId st) = true ->
       settles backend (loadConversations st) st
       = Chat.mkState (first :: rest) (Some (id first))
           (history_or_empty backend (id first)) (input st) (Chat.loading st) /\
       issued backend (loadConversations st) st
       = [issue getConversations; issue (getChatHistory (id first))]).
Proof.
  intros backend st.
  pose proof (loadConversations_world backend st st) as W.
  rewrite loadConversations_later in W.
  split; [|split].
  - intros H. rewrite H in W. now injection W as -> _.
  - intros convs H N. rewrite H, N in W.
    destruct convs as [|first rest]; injection W as -> ->; split; reflexivity.
  - intros first rest H N. rewrite H, N in W.
    injection W as -> ->. split; reflexivity.
Qed.

Lemma loadConversations_settles_witness :
  settles healthy (loadConversations talking) talking
  = Chat.mkState [mkConversation 8%Z "Yield"; mkConversation 7%Z "Complaints"] (Some 7%Z)
      [mkMessage user "Status?"; mkMessage assistant "Stable."] "Trends?" false /\
  currentConvId (settles healthy (loadConversations fresh) fresh) = Some 8%Z.
Proof.
  destruct (loadConversations_settles healthy talking) as (_ & A & _).
  destruct (loadConversations_settles healthy fresh) as (_ & _ & B).
  split.
  - apply (A _ eq_refl eq_refl).
  - destruct (B _ _ eq_refl eq_refl) as [E _]. rewrite E. reflexivity.
Defined.

Lemma selectConversation_settles_witness :
  messages (settles offline (selectConversation 5%Z) talking) = [].
Proof.
  apply (selectConversation_settles offline 5%Z talking). reflexivity.
Defined.

(** ** Chat.jsx: a turn *)

Lemma send_completes_with (backend : Backend) (closure st : Chat.State) (convId : Z)
      (tr : list sent) :
  fst (fst (fst (run backend (send closure convId) (st, tr))))
  = Chat.mkState (conversations st) (currentConvId st)
      (messages st ++ [mkMessage user (input closure);
                       reply_or_fallback backend convId (input closure)])%list
      "" false.
Proof.
  unfold send, reply_or_fallback. rewrite !run_Update, run_Await. cbn [fst snd].
  destruct (json (backend _ (chat convId (input closure)))) as [reply|].
  - rewrite run_Update, run_Call, run_Update. cbn [run start fst snd].
    unfold Chat.setLoading, setMessages, setInput; simpl. now rewrite <- app_assoc.
  - rewrite !run_Update. cbn [run fst snd].
    unfold Chat.setLoading, setMessages, setInput; simpl. now rewrite <- app_assoc.
Qed.

(** X12. A submit that passes the guard with a conversation open ends,
    when its promise settles, with exactly two more messages, the user's
    text and then the reply of the backend or the text "Connection
    error."; the input is cleared, [loading] is false, and the list and
    the selection are as before. The promise fulfils either way. *)
Theorem handleSubmit_turn_completes :
  forall (backend : Backend) (st : Chat.State) (convId : Z),
    blank (input st) = false -> Chat.loading st = false ->
    currentConvId st = Some convId -> convId <> 0%Z ->
    completes backend (handleSubmit st) st
    = Chat.mkState (conversations st) (Some convId)
        (messages st ++ [mkMessage user (input st);
                         reply_or_fallback backend convId (input st)])%list
        "" false /\
    snd (fst (run backend (handleSubmit st) (st, []))) = true.
Proof.
  intros backend st convId Hb Hl Hc Hz.
  rewrite (handleSubmit_open st convId Hb Hl Hc Hz). split.
  - unfold completes. rewrite send_completes_with, Hc. reflexivity.
  - unfold send. rewrite !run_Update, run_Await.
    destruct (json (backend _ (chat convId (input st)))); [|reflexivity].
    rewrite run_Update, run_Call. reflexivity.
Qed.

Lemma handleSubmit_turn_completes_witness :
  messages (completes offline (handleSubmit talking) talking)
  = [mkMessage user "Status?"; mkMessage assistant "Stable.";
     mkMessage user "Trends?"; mkMessage assistant "Connection error."].
Proof.
  destruct (handleSubmit_turn_completes offline talking 7%Z eq_refl eq_refl eq_refl)
    as [E _]; [discriminate|].
  rewrite E. reflexivity.
Defined.

(** X13. A submit that passes the guard with nothing selected, the
    backend allocating a conversation for it: when the promise settles the
    new conversation is first in the list and selected, the chat request
    went to it with the text typed, and the messages have grown by the
    user's text and one assistant message. *)
Theorem handleSubmit_creates_conversation :
  forall (backend : Backend) (st : Chat.State) (conv : Conversation),
    blank (input st) = false -> Chat.loading st = false ->
    no_conversation (currentConvId st) = true ->
    json (backend _ createConversation) = Resolved conv ->
    completes backend (handleSubmit st) st
    = Chat.mkState (conv :: conversations st) (Some (id conv))
        (messages st ++ [mkMessage user (input st);
                         reply_or_fallback backend (id conv) (input st)])%list
        "" false /\
    firstn 2 (snd (fst (fst (run backend (handleSubmit st) (st, [])))))
    = [issue createConversation; issue (chat (id conv) (input st))].
Proof.
  intros backend st conv Hb Hl Hn Hc.
  assert (E : handleSubmit st
              = Await createConversation (fun r =>
                  match r with
                  | Resolved conv =>
                      Update (setConversations (fun prev => conv :: prev))
                        (Update (setCurrentConvId (Some (id conv))) (send st (id conv)))
                  | Rejected => Throw
                  end)).
  { unfold handleSubmit. rewrite Hb, Hl. cbn [orb].
    destruct (currentConvId st) as [c|]; [|reflexivity].
    now rewrite Hn. }
  rewrite E. split.
  - unfold completes. rewrite run_Await, Hc, !run_Update.
    apply (send_completes_with backend st
             (setCurrentConvId (Some (id conv))
                (setConversations (fun prev => conv :: prev) st)) (id conv)).

  - rewrite run_Await, Hc, !run_Update. unfold send.
    rewrite !run_Update, run_Await. cbn [fst snd app].
    destruct (json (backend _ (chat (id conv) (input st)))).
    + rewrite run_Update, run_Call, run_Update. reflexivity.
    + reflexivity.
Qed.

Lemma handleSubmit_creates_conversation_witness :
  completes healthy (handleSubmit fresh) fresh
  = Chat.mkState [mkConversation 8%Z "New conversation"] (Some 8%Z)
      [mkMessage user "x"; mkMessage assistant "All batches were released."] "" false.
Proof.
  apply (handleSubmit_creates_conversation healthy fresh
           (mkConversation 8%Z "New conversation")); reflexivity.
Defined.

(** Past the guard with nothing selected, the handler first creates a
    conversation. *)
Lemma handleSubmit_lazy (st : Chat.State) :
  blank (input st) = false -> Chat.loading st = false ->
  no_conversation (currentConvId st) = true ->
  handleSubmit st
  = Await createConversation (fun r =>
      match r with
      | Resolved conv =>
          Update (setConversations (fun prev => conv :: prev))
            (Update (setCurrentConvId (Some (id conv))) (send st (id conv)))
      | Rejected => Throw
      end).
Proof.
  intros Hb Hl Hn. unfold handleSubmit. rewrite Hb, Hl. cbn [orb].
  destruct (currentConvId st) as [c|]; [|reflexivity].
  now rewrite Hn.
Qed.

(** The world in which a turn ends once the refresh it launched is over. *)
Lemma send_settled_world (backend : Backend) (closure st : Chat.State) (convId : Z)
      (tr : list sent) (reply : string) :
  json (backend _ (chat convId (input closure))) = Resolved reply ->
  snd (run backend (send closure convId) (st, tr))
    (fst (fst (run backend (send closure convId) (st, tr))))
  = snd (start backend (loadConversations closure) (st, tr))
      (Chat.mkState (conversations st) (currentConvId st)
         (messages st ++ [mkMessage user (input closure); mkMessage assistant reply])%list
         "" false,
       (tr ++ [issue (chat convId (input closure)); issue getConversations])%list).
Proof.
  intros H. unfold send. rewrite !run_Update, run_Await. cbn [fst snd].
  rewrite H, run_Update, run_Call, run_Update. cbn [run start fst snd].
  unfold Chat.setLoading, setMessages, setInput; simpl.
  now rewrite <- !app_assoc.
Qed.

(** X14. When a submit had to create its conversation and the reply has
    arrived, the refresh that follows still sees no selection: it selects
    the first conversation of the refreshed list, whichever that is, and
    replaces the two messages of the turn on screen by the history the
    backend holds for it (by nothing when the history cannot be loaded).
    Four requests went out, in this order: create, chat, list, history. *)
Theorem handleSubmit_refresh_reselects :
  forall (backend : Backend) (st : Chat.State) (conv first : Conversation)
         (rest : list Conversation) (reply : string),
    blank (input st) = false -> Chat.loading st = false ->
    no_conversation (currentConvId st) = true ->
    json (backend _ createConversation) = Resolved conv ->
    json (backend _ (chat (id conv) (input st))) = Resolved reply ->
    json (backend _ getConversations) = Resolved (first :: rest) ->
    settles backend (handleSubmit st) st
    = Chat.mkState (first :: rest) (Some (id first))
        (history_or_empty backend (id first)) "" false /\
    issued backend (handleSubmit st) st
    = [issue createConversation; issue (chat (id conv) (input st));
       issue getConversations; issue (getChatHistory (id first))].
Proof.
  intros backend st conv first rest reply Hb Hl Hn Hc Hr Hlist.
  pose proof (send_settled_world backend st
                (setCurrentConvId (Some (id conv))
                   (setConversations (fun prev => conv :: prev) st))
                (id conv) [issue createConversation] reply Hr) as W.
  rewrite loadConversations_later, Hlist, Hn in W. cbn [fst snd] in W.
  unfold settles, issued. rewrite (handleSubmit_lazy st Hb Hl Hn).
  rewrite run_Await, Hc, !run_Update. cbn [fst snd app].
  destruct (run backend (send st (id conv)) _) as [[w ok] later].
  cbn [fst snd] in W. rewrite W. split; reflexivity.
Qed.

Lemma handleSubmit_refresh_reselects_witness :
  settles healthy (handleSubmit fresh) fresh
  = Chat.mkState [mkConversation 8%Z "Yield"; mkConversation 7%Z "Complaints"] (Some 8%Z)
      [mkMessage user "Status?"] "" false.
Proof.
  apply (handleSubmit_refresh_reselects healthy fresh
           (mkConversation 8%Z "New conversation") (mkConversation 8%Z "Yield")
           [mkConversation 7%Z "Complaints"] "All batches were released.");
    reflexivity.
Defined.

(** X15. While a first submit is waiting for its conversation to be
    created, nothing has been set yet: the state is as before, [loading]
    still false, the input still there. A second submit from that state
    passes the guard and issues a creation request of its own. *)
Theorem handleSubmit_second_create :
  forall (backend : Backend) (st : Chat.State),
    blank (input st) = false -> Chat.loading st = false ->
    no_conversation (currentConvId st) = true ->
    let pending := fst (start backend (handleSubmit st) (st, [])) in
    fst pending = st /\
    snd pending = [issue createConversation] /\
    snd (fst (start backend (handleSubmit (fst pending)) pending))
    = [issue createConversation; issue createConversation].
Proof.
  intros backend st Hb Hl Hn pending. subst pending.
  rewrite (handleSubmit_lazy st Hb Hl Hn). cbn [start fst snd app].
  rewrite (handleSubmit_lazy st Hb Hl Hn). repeat split.
Qed.

Lemma handleSubmit_second_create_witness :
  snd (fst (start offline (handleSubmit fresh)
              (fst (start offline (handleSubmit fresh) (fresh, [])))))
  = [issue createConversation; issue createConversation].
Proof.
  apply (handleSubmit_second_create offline fresh); reflexivity.
Defined.

Lemma loadConversations_later_loading (backend : Backend) (closure : Chat.State)
      (w x : world) :
  Chat.loading (fst (snd (start backend (loadConversations closure) w) x))
  = Chat.loading (fst x).
Proof.
  rewrite loadConversations_later.
  destruct (json (backend _ getConversations)) as [[|first rest]|]; try reflexivity.
  now destruct (no_conversation (currentConvId closure)).
Qed.

Lemma send_settles_loading (backend : Backend) (closure st : Chat.State) (convId : Z)
      (tr : list sent) :
  Chat.loading
    (fst (snd (run backend (send closure convId) (st, tr))
            (fst (fst (run backend (send closure convId) (st, tr))))))
  = false.
Proof.
  destruct (json (backend _ (chat convId (input closure)))) as [reply|] eqn:H.
  - rewrite (send_settled_world backend closure st convId tr reply H).
    now rewrite loadConversations_later_loading.
  - unfold send. rewrite !run_Update, run_Await, H. reflexivity.
Qed.

(** X16. A submit run to its end, with the refresh it launched, leaves
    [loading] as it found it: a submit that is let through (so [loading]
    was false) never leaves the form disabled, whether the requests
    succeed or fail. *)
Theorem handleSubmit_keeps_loading :
  forall (backend : Backend) (st : Chat.State),
    Chat.loading (settles backend (handleSubmit st) st) = Chat.loading st.
Proof.
  intros backend st. unfold settles.
  destruct (blank (input st)) eqn:Hb.
  { now rewrite handleSubmit_guarded by (left; exact Hb). }
  destruct (Chat.loading st) eqn:Hl.
  { rewrite handleSubmit_guarded by (right; exact Hl). exact Hl. }
  destruct (no_conversation (currentConvId st)) eqn:Hn.
  - rewrite (handleSubmit_lazy st Hb Hl Hn), run_Await.
    destruct (json (backend _ createConversation)) as [conv|]; [|exact Hl].
    rewrite !run_Update. cbn [fst snd].
    pose proof (send_settles_loading backend st
                  (setCurrentConvId (Some (id conv))
                     (setConversations (fun prev => conv :: prev) st))
                  (id conv) ([] ++ [issue createConversation])) as L.
    destruct (run backend (send st (id conv)) _) as [[w ok] later]. exact L.
  - destruct (currentConvId st) as [c|] eqn:Hc; [|discriminate Hn].
    assert (Hz : c <> 0%Z) by (intros ->; discriminate Hn).
    rewrite (handleSubmit_open st c Hb Hl Hc Hz).
    pose proof (send_settles_loading backend st st c []) as L.
    destruct (run backend (send st c) _) as [[w ok] later]. exact L.
Qed.

(** ** Chat.jsx: parseMarkdown *)

Section Markdown.

Local Open Scope string_scope.

Lemma free_of_append (p : Ascii.ascii -> bool) (a b : string) :
  free_of p (a ++ b) = free_of p a && free_of p b.
Proof.
  induction a as [|c a IH]; simpl; [reflexivity|].
  now rewrite IH, andb_assoc.
Qed.

Lemma length_append (a b : string) :
  String.length (a ++ b) = (String.length a + String.length b)%nat.
Proof. induction a as [|c a IH]; simpl; [reflexivity | now rewrite IH]. Qed.

Lemma append_assoc (a b c : string) : (a ++ b) ++ c = a ++ (b ++ c).
Proof. induction a as [|x a IH]; simpl; [reflexivity | now rewrite IH]. Qed.

Lemma append_empty (a : string) : a ++ "" = a.
Proof. induction a as [|x a IH]; simpl; [reflexivity | now rewrite IH]. Qed.

(** A delimiter that starts with a star is no prefix of a text whose first
    character is not a star. *)
Lemma prefix_needs_star (d' : string) (c : Ascii.ascii) (rest : string) :
  is_star c = false -> String.prefix (String star d') (String c rest) = false.
Proof.
  intros H.
  change (String.prefix (String star d') (String c rest))
    with (match Ascii.ascii_dec star c with
          | left _ => String.prefix d' rest
          | right _ => false
          end).
  destruct (Ascii.ascii_dec star c) as [E|_]; [|reflexivity].
  subst c. discriminate H.
Qed.

Lemma replace_newlines_clean (s : string) :
  free_of is_newline (replace_newlines s) = true.
Proof.
  induction s as [|c s IH]; simpl; [reflexivity|].
  destruct (Ascii.eqb c newline) eqn:E; simpl.
  - exact IH.
  - unfold is_newline at 1. now rewrite E.
Qed.

Lemma replace_newlines_id (s : string) :
  free_of is_newline s = true -> replace_newlines s = s.
Proof.
  induction s as [|c s IH]; simpl; [reflexivity|].
  unfold is_newline at 1. intros H. apply andb_prop in H. destruct H as [Hc Hs].
  apply negb_true_iff in Hc. rewrite Hc. now rewrite (IH Hs).
Qed.

(** Without a star in the text, no delimiter is found and the text is
    left as it is. *)
Lemma replace_pairs_id (d' opening closing s : string) :
  free_of is_star s = true ->
  replace_pairs (String star d') opening closing 0 s = s.
Proof.
  induction s as [|c s IH]; [reflexivity|].
  intros H. simpl in H. apply andb_prop in H. destruct H as [Hc Hs].
  apply negb_true_iff in Hc.
  cbn [replace_pairs]. rewrite (prefix_needs_star d' c s Hc).
  now rewrite (IH Hs).
Qed.

(** A match that has been replaced is skipped whole. *)
Lemma replace_pairs_skip (d opening closing s : string) (skip : nat) :
  (String.length s <= skip)%nat -> replace_pairs d opening closing skip s = "".
Proof.
  revert skip. induction s as [|c s IH]; intros skip H; [reflexivity|].
  simpl in H. destruct skip as [|k]; [lia|].
  cbn [replace_pairs]. apply IH. lia.
Qed.

(** The lazy group stops at the first delimiter: after a run without
    star and line terminator, the run is the group. *)
Lemma find_close_run (d' content tail : string) :
  free_of is_star content = true ->
  free_of is_line_terminator content = true ->
  find_close (String star d') (content ++ String star d' ++ tail) = Some content.
Proof.
  induction content as [|c content IH]; intros Hs Ht.
  - assert (P : forall a b, String.prefix a (a ++ b) = true).
    { induction a as [|x a IHa]; intros b; [now destruct b|].
      change (String.prefix (String x a) (String x a ++ b))
        with (match Ascii.ascii_dec x x with
              | left _ => String.prefix a (a ++ b)
              | right _ => false
              end).
      destruct (Ascii.ascii_dec x x) as [_|N]; [apply IHa | now elim N]. }
    change ("" ++ String star d' ++ tail) with (String star d' ++ tail).
    destruct (String star d' ++ tail) as [|x y] eqn:E; [discriminate E|].
    cbn [find_close]. rewrite <- E, P. reflexivity.
  - simpl in Hs, Ht.
    apply andb_prop in Hs. destruct Hs as [Hc Hs]. apply negb_true_iff in Hc.
    apply andb_prop in Ht. destruct Ht as [Hl Ht]. apply negb_true_iff in Hl.
    change (String c content ++ String star d' ++ tail)
      with (String c (content ++ String star d' ++ tail)).
    cbn [find_close]. rewrite (prefix_needs_star d' c _ Hc), Hl.
    now rewrite (IH Hs Ht).
Qed.

End Markdown.

Lemma prefix_append (a b : string) : String.prefix a (a ++ b)%string = true.
Proof.
  induction a as [|x a IHa]; [now destruct b|].
  change (String.prefix (String x a) (String x a ++ b)%string)
    with (match Ascii.ascii_dec x x with
          | left _ => String.prefix a (a ++ b)%string
          | right _ => false
          end).
  destruct (Ascii.ascii_dec x x) as [_|N]; [apply IHa | now elim N].
Qed.

(** One step of the replacement at an index where the pattern matches. *)
Lemma replace_pairs_match (d opening closing content rest : string) (a : Ascii.ascii) :
  String.prefix d (String a rest) = true ->
  find_close d (drop (String.length d) (String a rest)) = Some content ->
  replace_pairs d opening closing 0 (String a rest)
  = (opening ++ content ++ closing
     ++ replace_pairs d opening closing
          (String.length d + String.length content + String.length d - 1) rest)%string.
Proof. intros H1 H2. cbn [replace_pairs]. now rewrite H1, H2. Qed.

(** One step at an index where the text does not start with the delimiter. *)
Lemma replace_pairs_pass (d opening closing rest : string) (a : Ascii.ascii) :
  String.prefix d (String a rest) = false ->
  replace_pairs d opening closing 0 (String a rest)
  = String a (replace_pairs d opening closing 0 rest).
Proof. intros H. cbn [replace_pairs]. now rewrite H. Qed.

Lemma terminator_free_newline_free (s : string) :
  free_of is_line_terminator s = true -> free_of is_newline s = true.
Proof.
  induction s as [|c s IH]; simpl; [reflexivity|].
  intros H. apply andb_prop in H. destruct H as [Hc Hs].
  rewrite (IH Hs), andb_true_r.
  destruct (is_newline c) eqn:E; [|reflexivity].
  unfold is_newline in E. apply Ascii.eqb_eq in E. subst c. discriminate Hc.
Qed.

Lemma strong_pass_id (s : string) :
  free_of is_star s = true ->
  replace_pairs "**" "<strong>" "</strong>" 0 s = s.
Proof. exact (replace_pairs_id "*" "<strong>" "</strong>" s). Qed.

Lemma em_pass_id (s : string) :
  free_of is_star s = true ->
  replace_pairs "*" "<em>" "</em>" 0 s = s.
Proof. exact (replace_pairs_id "" "<em>" "</em>" s). Qed.

(** X17. The markup that [parseMarkdown] returns never holds a raw
    newline: every one has become a [<br/>]. *)
Theorem parseMarkdown_no_newline :
  forall text : string, free_of is_newline (parseMarkdown text) = true.
Proof.
  intros text. unfold parseMarkdown.
  destruct (String.eqb text ""); [reflexivity|].
  apply replace_newlines_clean.
Qed.

(** X18. A text with no star and no newline comes back character for
    character: nothing in it is escaped, so markup typed in a message
    (angle brackets, ampersands, quotes) reaches the page as markup. *)
Theorem parseMarkdown_verbatim :
  forall text : string,
    free_of is_star text = true -> free_of is_newline text = true ->
    parseMarkdown text = text.
Proof.
  intros text Hs Hn. unfold parseMarkdown.
  destruct (String.eqb_spec text "") as [->|_]; [reflexivity|].
  now rewrite (strong_pass_id text Hs), (em_pass_id text Hs), (replace_newlines_id text Hn).
Qed.

Lemma parseMarkdown_verbatim_witness :
  parseMarkdown "<img src=x onerror=alert(1)>" = "<img src=x onerror=alert(1)>".
Proof.
  apply (parseMarkdown_verbatim "<img src=x onerror=alert(1)>"); reflexivity.
Defined.

(** X19. A run of text without star and line terminator, set between two
    double stars, comes back between [<strong>] and [</strong>]; set
    between two single stars, between [<em>] and [</em>]. *)
Theorem parseMarkdown_emphasis :
  forall content : string,
    free_of is_star content = true ->
    free_of is_line_terminator content = true ->
    parseMarkdown ("**" ++ content ++ "**") = "<strong>" ++ content ++ "</strong>" /\
    parseMarkdown ("*" ++ content ++ "*") = "<em>" ++ content ++ "</em>".
Proof.
  intros content Hs Ht.
  pose proof (terminator_free_newline_free content Ht) as Hn.
  assert (Strong : free_of is_star ("<strong>" ++ content ++ "</strong>") = true).
  { rewrite !free_of_append, Hs. reflexivity. }
  assert (Em : free_of is_newline ("<em>" ++ content ++ "</em>") = true).
  { rewrite !free_of_append, Hn. reflexivity. }
  assert (StrongN : free_of is_newline ("<strong>" ++ content ++ "</strong>") = true).
  { rewrite !free_of_append, Hn. reflexivity. }
  split.
  - unfold parseMarkdown.
    change ("**" ++ content ++ "**") with (String star (String star (content ++ "**"))).
    cbn [String.eqb].
    rewrite (replace_pairs_match "**" "<strong>" "</strong>" content).
    + rewrite (replace_pairs_skip "**" "<strong>" "</strong>").
      * rewrite append_empty, (em_pass_id _ Strong). now apply replace_newlines_id.
      * simpl. rewrite length_append. simpl. lia.
    + exact (prefix_append "**" (content ++ "**")).
    + exact (find_close_run "*" content "" Hs Ht).
  - unfold parseMarkdown.
    change ("*" ++ content ++ "*") with (String star (content ++ "*")).
    cbn [String.eqb].
    assert (E1 : replace_pairs "**" "<strong>" "</strong>" 0 (String star (content ++ "*"))
                 = String star (content ++ "*")).
    { destruct content as [|c content]; [reflexivity|].
      simpl in Hs. apply andb_prop in Hs. destruct Hs as [Hc Hs'].
      apply negb_true_iff in Hc.
      change (String c content ++ "*") with (String c (content ++ "*")).
      rewrite replace_pairs_pass.
      - f_equal. rewrite replace_pairs_pass by exact (prefix_needs_star "*" c _ Hc).
        f_equal. clear Hc Ht Hn Strong Em StrongN.
        induction content as [|x content IH]; [reflexivity|].
        simpl in Hs'. apply andb_prop in Hs'. destruct Hs' as [Hx Hs''].
        apply negb_true_iff in Hx.
        change (String x content ++ "*") with (String x (content ++ "*")).
        rewrite replace_pairs_pass by exact (prefix_needs_star "*" x _ Hx).
        now rewrite (IH Hs'').
      - change (String.prefix "**" (String star (String c (content ++ "*"))))
          with (match Ascii.ascii_dec star star with
                | left _ => String.prefix "*" (String c (content ++ "*"))
                | right _ => false
                end).
        destruct (Ascii.ascii_dec star star); [|reflexivity].
        exact (prefix_needs_star "" c _ Hc). }
    rewrite E1.
    rewrite (replace_pairs_match "*" "<em>" "</em>" content).
    + rewrite (replace_pairs_skip "*" "<em>" "</em>").
      * rewrite append_empty. now apply replace_newlines_id.
      * rewrite length_append. simpl. lia.
    + exact (prefix_append "*" (content ++ "*")).
    + exact (find_close_run "" content "" Hs Ht).
Qed.

Lemma parseMarkdown_emphasis_witness :
  parseMarkdown "**Press-A**" = "<strong>Press-A</strong>" /\
  parseMarkdown "*stable*" = "<em>stable</em>".
Proof.
  split.
  - apply (parseMarkdown_emphasis "Press-A"); reflexivity.
  - apply (parseMarkdown_emphasis "stable"); reflexivity.
Defined.

(** ** api.js: streamSummary over whole streams *)

Lemma dispatch_settled_once (c : channel Log) (e : event) :
  settled_once c ->
  settled_once (dispatch Log logChunk (Some logDone) (Some logError) c e).
Proof.
  intros Inv. unfold dispatch.
  destruct c as [cl log]. destruct Inv as [(O & C & E) | (O & T)]; simpl in *; subst cl.
  - destruct e as [[data|]|]; simpl.
    + destruct (nullish data); [left; now repeat split|].
      destruct (truthy (opt_get data "done")).
      { right. simpl. split; [reflexivity|]. rewrite C, E. reflexivity. }
      destruct (truthy (opt_get data "error")).
      { right. simpl. split; [reflexivity|]. rewrite C, E. reflexivity. }
      destruct (truthy (opt_get data "text")); left; now repeat split.
    + left. now repeat split.
    + right. simpl. split; [reflexivity|]. rewrite C, E. reflexivity.
  - right. now split.
Qed.

(** X20. Over any stream of events whatever, the completion callback and
    the error callback are called at most once between them, and the
    channel is closed exactly when one of them has been called. *)
Theorem streamSummary_one_terminal_callback :
  forall events : list event,
    (completions (caller (observe events)) + length (errors (caller (observe events))) <= 1)%nat /\
    (closed (observe events) = true <->
     (completions (caller (observe events)) + length (errors (caller (observe events))) = 1)%nat).
Proof.
  intros events.
  assert (Inv : settled_once (observe events)).
  { unfold observe, streamSummary.
    assert (G : forall c, settled_once c ->
                settled_once (fold_left (dispatch Log logChunk (Some logDone) (Some logError))
                                events c)).
    { induction events as [|e events IH]; intros c Hc; [exact Hc|].
      simpl. apply IH. now apply dispatch_settled_once. }
    apply G. left. now repeat split. }
  destruct Inv as [(O & C & E) | (O & T)].
  - rewrite O, C, E. simpl. split; [lia|]. split; [discriminate | lia].
  - rewrite O, T. split; [lia|]. split; reflexivity.
Qed.

(** X21. A stream of text payloads only leaves the channel open, calls
    neither terminal callback, and the chunks handed to the caller put
    together are the texts put together, in order. *)
Theorem streamSummary_accumulates_text :
  forall texts : list string,
    observe (map text_event texts)
    = mkChannel Log false (mkLog (fold_right String.append "" texts) 0 []).
Proof.
  intros texts. unfold observe, streamSummary.
  assert (G : forall out,
             fold_left (dispatch Log logChunk (Some logDone) (Some logError))
               (map text_event texts) (mkChannel Log false (mkLog out 0 []))
             = mkChannel Log false (mkLog (out ++ fold_right String.append "" texts) 0 [])).
  { induction texts as [|t texts IH]; intros out; simpl.
    - now rewrite append_empty.
    - assert (S : dispatch Log logChunk (Some logDone) (Some logError)
                    (mkChannel Log false (mkLog out 0 [])) (text_event t)
                  = mkChannel Log false (mkLog (out ++ t) 0 [])).
      { destruct t as [|a t]; [now rewrite append_empty | reflexivity]. }
      rewrite S, IH, append_assoc. reflexivity. }
  exact (G "").
Qed.

(** X22. Whether the channel ends up closed depends on the events alone:
    not on the callbacks passed, nor on whether the two optional ones were
    passed at all. *)
Theorem streamSummary_closing_ignores_callbacks :
  forall (A B : Type)
         (chunkA : value -> A -> A) (doneA : option (A -> A)) (errorA : option (value -> A -> A))
         (chunkB : value -> B -> B) (doneB : option (B -> B)) (errorB : option (value -> B -> B))
         (events : list event) (a : A) (b : B),
    closed (streamSummary A chunkA doneA errorA events a)
    = closed (streamSummary B chunkB doneB errorB events b).
Proof.
  intros A B chunkA doneA errorA chunkB doneB errorB events a b.
  unfold streamSummary.
  assert (G : forall (ca : channel A) (cb : channel B),
             closed ca = closed cb ->
             closed (fold_left (dispatch A chunkA doneA errorA) events ca)
             = closed (fold_left (dispatch B chunkB doneB errorB) events cb)).
  { induction events as [|e events IH]; intros ca cb H; [exact H|].
    simpl. apply IH. unfold dispatch. rewrite <- H.
    destruct (closed ca) eqn:Ca; [now rewrite <- H|].
    destruct e as [[data|]|]; simpl.
    - destruct (nullish data); [now rewrite <- H|].
      destruct (truthy (opt_get data "done")).
      { unfold call_onDone. now destruct doneA, doneB. }
      destruct (truthy (opt_get data "error")).
      { unfold call_onError. now destruct errorA, errorB. }
      destruct (truthy (opt_get data "text")); simpl; now rewrite <- H.
    - now rewrite <- H.
    - unfold onerror, call_onError. now destruct errorA, errorB. }
  now apply G.
Qed.

(** ** Chat.jsx: the form *)

(** X23. The submit button is disabled exactly when a submit would do
    nothing: with the button disabled the handler changes no state and
    issues no request; with it enabled the handler issues a request, the
    creation of a conversation or the chat message. *)
Theorem submit_disabled_iff_noop :
  forall (backend : Backend) (st : Chat.State),
    (submit_disabled st = true ->
     settles backend (handleSubmit st) st = st /\
     issued backend (handleSubmit st) st = []) /\
    (submit_disabled st = false ->
     exists rest,
       snd (fst (fst (run backend (handleSubmit st) (st, []))))
       = (if no_conversation (currentConvId st)
          then issue createConversation
          else match currentConvId st with
               | Some convId => issue (chat convId (input st))
               | None => issue createConversation
               end) :: rest).
Proof.
  intros backend st. unfold submit_disabled. split.
  - intros H. apply orb_true_iff in H.
    unfold settles, issued.
    rewrite handleSubmit_guarded by (destruct H; [right | left]; assumption).
    split; reflexivity.
  - intros H. apply orb_false_iff in H. destruct H as [Hl Hb].
    destruct (no_conversation (currentConvId st)) eqn:Hn.
    + rewrite (handleSubmit_lazy st Hb Hl Hn), run_Await.
      destruct (json (backend _ createConversation)) as [conv|].
      * rewrite !run_Update. unfold send. rewrite !run_Update, run_Await. cbn [fst snd app].
        destruct (json (backend _ (chat (id conv) (input st)))).
        -- rewrite run_Update, run_Call, run_Update. cbn [run start fst snd app].
           eexists. reflexivity.
        -- rewrite !run_Update. cbn [run fst snd app]. eexists. reflexivity.
      * cbn [run fst snd app]. eexists. reflexivity.
    + destruct (currentConvId st) as [c|] eqn:Hc; [|discriminate Hn].
      assert (Hz : c <> 0%Z) by (intros ->; discriminate Hn).
      rewrite (handleSubmit_open st c Hb Hl Hc Hz).
      unfold send. rewrite !run_Update, run_Await. cbn [fst snd app].
      destruct (json (backend _ (chat c (input st)))).
      * rewrite run_Update, run_Call, run_Update. cbn [run start fst snd app].
        eexists. reflexivity.
      * rewrite !run_Update. cbn [run fst snd app]. eexists. reflexivity.
Qed.

Lemma submit_disabled_iff_noop_witness :
  settles healthy (handleSubmit (Chat.setLoading true talking)) (Chat.setLoading true talking)
  = Chat.setLoading true talking /\
  exists rest,
    snd (fst (fst (run healthy (handleSubmit talking) (talking, []))))
    = issue (chat 7%Z "Trends?") :: rest.
Proof.
  destruct (submit_disabled_iff_noop healthy (Chat.setLoading true talking)) as [A _].
  destruct (submit_disabled_iff_noop healthy talking) as [_ B].
  split.
  - apply A. reflexivity.
  - apply B. reflexivity.
Defined.

(** X24. Up to the moment its promise settles, a submit never removes or
    reorders a message: the list it leaves is the list it found followed by
    nothing, or by the user's text and then one assistant message. *)
Theorem handleSubmit_appends_only :
  forall (backend : Backend) (st : Chat.State),
    exists tail : list Chat.Message,
      messages (completes backend (handleSubmit st) st) = (messages st ++ tail)%list /\
      (tail = [] \/
       exists reply, tail = [mkMessage user (input st); reply] /\ role reply = assistant).
Proof.
  intros backend st.
  assert (R : forall convId, role (reply_or_fallback backend convId (input st)) = assistant).
  { intros convId. unfold reply_or_fallback.
    now destruct (json (backend _ (chat convId (input st)))). }
  destruct (blank (input st)) eqn:Hb.
  { exists []. rewrite handleSubmit_guarded by (left; exact Hb).
    split; [now rewrite app_nil_r | now left]. }
  destruct (Chat.loading st) eqn:Hl.
  { exists []. rewrite handleSubmit_guarded by (right; exact Hl).
    split; [now rewrite app_nil_r | now left]. }
  destruct (no_conversation (currentConvId st)) eqn:Hn.
  - unfold completes. rewrite (handleSubmit_lazy st Hb Hl Hn), run_Await.
    destruct (json (backend _ createConversation)) as [conv|].
    + rewrite !run_Update. cbn [fst snd]. rewrite send_completes_with.
      eexists. split; [reflexivity|]. right. eexists. split; [reflexivity | apply R].
    + exists []. split; [now rewrite app_nil_r | now left].
  - destruct (currentConvId st) as [c|] eqn:Hc; [|discriminate Hn].
    assert (Hz : c <> 0%Z) by (intros ->; discriminate Hn).
    unfold completes. rewrite (handleSubmit_open st c Hb Hl Hc Hz), send_completes_with.
    eexists. split; [reflexivity|]. right. eexists. split; [reflexivity | apply R].
Qed.
